(** * HORNET tip endpoints: [getTipInfo], [getTransactionsToApprove] and the
      REST [/tips] route.

    A shallow embedding of [plugins/webapi/tips.go] and of the route table
    built by [configure] in [plugins/restapi/v1/plugin.go].

    The handlers read the node through packages whose code lives elsewhere
    ([tangle], [dag], [config], [urts], [hornet]); what they return is a field
    of the record [Node] (or of [Externals] for pure helpers and constants),
    so every statement below holds for any node.  Each call a handler makes
    to a collaborator is appended to a trace, which is how "this check is
    made before that one" and "nothing else is consulted" are stated.

    Not modelled: the reference counting of cached objects ([Retain],
    [Release], the [defer]red releases); it does not influence a response. *)

From Stdlib Require Import ZArith List String Ascii Bool Lia.
Import ListNotations.

Local Open Scope string_scope.
Local Open Scope list_scope.
Local Open Scope Z_scope.

(* ===================================================================== *)
(** ** Milestone indexes *)
(* ===================================================================== *)

(** [milestone.Index] is a [uint32]: subtraction wraps around, and the
    conversion [milestone.Index(n)] of an [int] keeps the low 32 bits. *)
Module Milestone.

Definition Index : Type := Z.

Definition modulus : Z := 2 ^ 32.

Definition wrap (z : Z) : Index := z mod modulus.

(** [a - b] on [milestone.Index]. *)
Definition sub (a b : Index) : Index := wrap (a - b).

(** [milestone.Index(n)] for an [int] [n]. *)
Definition ofInt (n : Z) : Index := wrap n.

(** [a > b]. *)
Definition gtb (a b : Index) : bool := b <? a.

(** The indexes a [uint32] can hold. *)
Definition inRange (a : Index) : Prop := 0 <= a < modulus.

End Milestone.

(* ===================================================================== *)
(** ** HTTP status codes ([net/http]) *)
(* ===================================================================== *)

Module Http.
Definition StatusOK : Z := 200.
Definition StatusBadRequest : Z := 400.
Definition StatusNotFound : Z := 404.
Definition StatusMethodNotAllowed : Z := 405.
Definition StatusInternalServerError : Z := 500.
Definition StatusServiceUnavailable : Z := 503.
End Http.

(* ===================================================================== *)
(** ** [guards.IsTransactionHash] (iota.go) *)
(* ===================================================================== *)

Module Guards.

(** A tryte is one of [9ABCDEFGHIJKLMNOPQRSTUVWXYZ]. *)
Definition isTryte (c : ascii) : bool :=
  let n := nat_of_ascii c in
  Nat.eqb n 57 || (Nat.leb 65 n && Nat.leb n 90).

Definition HashTrytesSize : nat := 81.

(** A transaction hash is exactly 81 trytes. *)
Definition IsTransactionHash (trytes : string) : bool :=
  Nat.eqb (String.length trytes) HashTrytesSize
  && forallb isTryte (list_ascii_of_string trytes).

End Guards.

(* ===================================================================== *)
(** ** What the handlers read *)
(* ===================================================================== *)

(** [hornet.Hash] is a byte string; the handlers use it as a map key through
    [string(hash)]. *)
Definition Hash : Type := string.

(** Transaction metadata as the handlers read it. *)
Record Metadata : Type := {
  GetTxHash : Hash;
  IsTail : bool;
  IsSolid : bool;
  IsConflicting : bool;
  IsConfirmed : bool
}.

(** The two approvees of a bundle: [GetTrunkHash(true)], [GetBranchHash(true)]. *)
Record Bundle : Type := {
  GetTrunkHash : Hash;
  GetBranchHash : Hash
}.

Record SnapshotInfo : Type := {
  EntryPointIndex : Milestone.Index
}.

(** The configuration keys read by [getTipInfo]. *)
Inductive ConfigKey : Type :=
| CfgTipSelBelowMaxDepth
| CfgTipSelMaxDeltaTxYoungestRootSnapshotIndexToLSMI
| CfgTipSelMaxDeltaTxApproveesOldestRootSnapshotIndexToLSMI.

(** The plugins whose status the handlers and [configure] ask for. *)
Inductive Plugin : Type :=
| urts_PLUGIN
| spammer_PLUGIN.

(** The errors of [SelectNonLazyTips].  The handler compares the error with
    the two sentinels [tangle.ErrNodeNotSynced] and
    [tipselect.ErrNoTipsAvailable]; any other error only shows its message. *)
Inductive error : Type :=
| ErrNodeNotSynced
| ErrNoTipsAvailable
| ErrOther (msg : string).

(** Pure helpers and constants of the packages [hornet], [webapi], [tangle]
    and [tipselect], declared outside the files embedded here. *)
Record Externals : Type := {
  (** [hornet.HashFromHashTrytes] *)
  HashFromHashTrytes : string -> Hash;
  (** [hornet.Hash.Trytes] *)
  Trytes : Hash -> string;
  (** the message of [webapi.ErrInternalError] *)
  ErrInternalError : string;
  (** the message of [tangle.ErrNodeNotSynced] *)
  ErrNodeNotSyncedText : string;
  (** the message of [tipselect.ErrNoTipsAvailable] *)
  ErrNoTipsAvailableText : string
}.

(** [err.Error()] *)
Definition Error (x : Externals) (err : error) : string :=
  match err with
  | ErrNodeNotSynced => ErrNodeNotSyncedText x
  | ErrNoTipsAvailable => ErrNoTipsAvailableText x
  | ErrOther msg => msg
  end.

(** The node as one request sees it. *)
Record Node : Type := {
  (** [node.IsSkipped] *)
  IsSkipped : Plugin -> bool;
  (** [tangle.IsNodeSyncedWithThreshold] *)
  IsNodeSyncedWithThreshold : bool;
  (** [tangle.GetCachedTxMetadataOrNil]; [None] is [nil] *)
  GetCachedTxMetadataOrNil : Hash -> option Metadata;
  (** [tangle.GetSolidMilestoneIndex] *)
  GetSolidMilestoneIndex : Milestone.Index;
  (** [dag.GetTransactionRootSnapshotIndexes]: the pair (YTRSI, OTRSI) *)
  GetTransactionRootSnapshotIndexes :
    Metadata -> Milestone.Index -> Milestone.Index * Milestone.Index;
  (** [config.NodeConfig.GetInt] *)
  GetInt : ConfigKey -> Z;
  (** [tangle.GetCachedBundleOrNil]; [None] is [nil] *)
  GetCachedBundleOrNil : Hash -> option Bundle;
  (** [tangle.SolidEntryPointsContain] *)
  SolidEntryPointsContain : Hash -> bool;
  (** [tangle.GetSnapshotInfo] *)
  GetSnapshotInfo : SnapshotInfo;
  (** [urts.TipSelector.SelectNonLazyTips]: an error or the selected tips *)
  SelectNonLazyTips : error + list Hash;
  (** [deps.NodeConfig.Bool(powcore.CfgNodeEnableProofOfWork)] *)
  CfgNodeEnableProofOfWork : bool;
  (** Go leaves the iteration order of a map unspecified: [true] when the
      [range] over the two approvees yields the branch before the trunk. *)
  rangeBranchFirst : bool
}.

(** The result of [mapstructure.Decode(i, query)]: the handler's input [i]
    is represented by what it decodes to. *)
Inductive Decoded (A : Type) : Type :=
| DecodeOk (query : A)
| DecodeErr (err : string).
Arguments DecodeOk {A} query.
Arguments DecodeErr {A} err.

Record GetTipInfo : Type := {
  TailTransaction : string
}.

Record GetTransactionsToApprove : Type := {
  Reference : string
}.

(** The JSON bodies the handlers send. *)
Inductive Body : Type :=
| ErrorReturn (Error : string)
| GetTipInfoReturn (Confirmed Conflicting ShouldPromote ShouldReattach : bool)
| GetTransactionsToApproveReturn (TrunkTransaction BranchTransaction : string).

(* ===================================================================== *)
(** ** The handler monad *)
(* ===================================================================== *)

(** A call to a collaborator, as recorded in the trace. *)
Inductive Call : Type :=
| CallIsSkipped (p : Plugin)
| CallIsNodeSyncedWithThreshold
| CallDecode
| CallIsTransactionHash (trytes : string)
| CallGetCachedTxMetadataOrNil (h : Hash)
| CallGetSolidMilestoneIndex
| CallGetTransactionRootSnapshotIndexes (m : Metadata) (lsmi : Milestone.Index)
| CallGetInt (key : ConfigKey)
| CallGetCachedBundleOrNil (h : Hash)
| CallSolidEntryPointsContain (h : Hash)
| CallGetSnapshotInfo
| CallSelectNonLazyTips.

(** How a handler ends: [c.JSON(status, body)] followed by [return], or a
    run-time panic (an index out of range). *)
Inductive Outcome : Type :=
| JSON (status : Z) (body : Body)
| Panic.

(** A computation of a handler: the calls made so far, and either the
    outcome that ended the handler or a value to go on with. *)
Definition Handler (A : Type) : Type := list Call * (Outcome + A).

Definition ret {A : Type} (a : A) : Handler A := ([], inr a).

Definition bind {A B : Type} (m : Handler A) (k : A -> Handler B) : Handler B :=
  match m with
  | (t, inl o) => (t, inl o)
  | (t, inr a) => let (t', r) := k a in (t ++ t', r)
  end.

(** A call to a collaborator, with the value it returns. *)
Definition call {A : Type} (c : Call) (a : A) : Handler A := ([c], inr a).

(** [c.JSON(status, body); return] *)
Definition respond {A : Type} (status : Z) (body : Body) : Handler A :=
  ([], inl (JSON status body)).

Definition panic {A : Type} : Handler A := ([], inl Panic).

Declare Scope handler_scope.
Delimit Scope handler_scope with handler.
Notation "x <- m ;; k" := (bind m (fun x => k))
  (at level 100, m at next level, right associativity) : handler_scope.
Local Open Scope handler_scope.

(** A handler answers on every path, so it computes no value. *)
Definition run (h : Handler Empty_set) : list Call * Outcome :=
  match h with
  | (t, inl o) => (t, o)
  | (_, inr e) => match e with end
  end.

(** [tips[n]] on a slice. *)
Definition index (tips : list Hash) (n : nat) : Handler Hash :=
  match nth_error tips n with
  | Some h => ret h
  | None => panic
  end.

(* ===================================================================== *)
(** ** [plugins/webapi/tips.go] *)
(* ===================================================================== *)

(** The keys of the map literal
    [{string(trunk): {}, string(branch): {}}] in the order the [range]
    yields them: one key when both approvees are the same transaction. *)
Definition approveeHashes (node : Node) (b : Bundle) : list Hash :=
  if String.eqb (GetTrunkHash b) (GetBranchHash b) then [GetTrunkHash b]
  else if rangeBranchFirst node then [GetBranchHash b; GetTrunkHash b]
  else [GetTrunkHash b; GetBranchHash b].

(** The body of the loop over the approvees, and the rest of the loop. *)
Fixpoint scanApprovees (x : Externals) (node : Node) (lsmi : Milestone.Index)
    (hashes : list Hash) : Handler unit :=
  match hashes with
  | [] => ret tt
  | approveeHash :: rest =>
      isSEP <- call (CallSolidEntryPointsContain approveeHash)
                    (SolidEntryPointsContain node approveeHash) ;;
      approveeORTSI <-
        (if isSEP : bool then
           info <- call CallGetSnapshotInfo (GetSnapshotInfo node) ;;
           ret (EntryPointIndex info)
         else
           cachedApproveeTxMeta <-
             call (CallGetCachedTxMetadataOrNil approveeHash)
                  (GetCachedTxMetadataOrNil node approveeHash) ;;
           match cachedApproveeTxMeta with
           | None =>
               respond Http.StatusBadRequest
                 (ErrorReturn ("approvee transaction not found: "
                               ++ Trytes x approveeHash)%string)
           | Some meta =>
               idx <- call (CallGetTransactionRootSnapshotIndexes meta lsmi)
                           (GetTransactionRootSnapshotIndexes node meta lsmi) ;;
               ret (snd idx)
           end) ;;
      maxDelta <-
        call (CallGetInt CfgTipSelMaxDeltaTxApproveesOldestRootSnapshotIndexToLSMI)
             (GetInt node CfgTipSelMaxDeltaTxApproveesOldestRootSnapshotIndexToLSMI) ;;
      if Milestone.gtb (Milestone.sub lsmi approveeORTSI) (Milestone.ofInt maxDelta)
      then respond Http.StatusOK (GetTipInfoReturn false false true false)
      else scanApprovees x node lsmi rest
  end.

Definition getTipInfo (x : Externals) (node : Node) (i : Decoded GetTipInfo)
    : Handler Empty_set :=
  skipped <- call (CallIsSkipped urts_PLUGIN) (IsSkipped node urts_PLUGIN) ;;
  if skipped : bool then
    respond Http.StatusServiceUnavailable
      (ErrorReturn "tipselection plugin disabled in this node")
  else
  synced <- call CallIsNodeSyncedWithThreshold (IsNodeSyncedWithThreshold node) ;;
  if negb synced then
    respond Http.StatusBadRequest (ErrorReturn "node is not synced")
  else
  decoded <- call CallDecode i ;;
  match decoded with
  | DecodeErr err =>
      respond Http.StatusInternalServerError
        (ErrorReturn (ErrInternalError x ++ ": " ++ err)%string)
  | DecodeOk query =>
  valid <- call (CallIsTransactionHash (TailTransaction query))
                (Guards.IsTransactionHash (TailTransaction query)) ;;
  if negb valid then
    respond Http.StatusBadRequest (ErrorReturn "invalid tail hash supplied")
  else
  cachedTxMeta <-
    call (CallGetCachedTxMetadataOrNil (HashFromHashTrytes x (TailTransaction query)))
         (GetCachedTxMetadataOrNil node (HashFromHashTrytes x (TailTransaction query))) ;;
  match cachedTxMeta with
  | None =>
      respond Http.StatusBadRequest (ErrorReturn "unknown tail transaction")
  | Some meta =>
  if negb (IsTail meta) then
    respond Http.StatusBadRequest (ErrorReturn "transaction is not a tail")
  else
  if negb (IsSolid meta) then
    respond Http.StatusBadRequest (ErrorReturn "transaction is not solid")
  else
  let conflicting := IsConflicting meta in
  let confirmed := IsConfirmed meta && negb conflicting in
  if confirmed || conflicting then
    respond Http.StatusOK (GetTipInfoReturn confirmed conflicting false false)
  else
  lsmi <- call CallGetSolidMilestoneIndex (GetSolidMilestoneIndex node) ;;
  idx <- call (CallGetTransactionRootSnapshotIndexes meta lsmi)
              (GetTransactionRootSnapshotIndexes node meta lsmi) ;;
  let ytrsi := fst idx in
  let ortsi := snd idx in
  belowMaxDepth <- call (CallGetInt CfgTipSelBelowMaxDepth)
                        (GetInt node CfgTipSelBelowMaxDepth) ;;
  if Milestone.gtb (Milestone.sub lsmi ortsi) (Milestone.ofInt belowMaxDepth) then
    respond Http.StatusOK (GetTipInfoReturn false false false true)
  else
  maxYTRSIDelta <-
    call (CallGetInt CfgTipSelMaxDeltaTxYoungestRootSnapshotIndexToLSMI)
         (GetInt node CfgTipSelMaxDeltaTxYoungestRootSnapshotIndexToLSMI) ;;
  if Milestone.gtb (Milestone.sub lsmi ytrsi) (Milestone.ofInt maxYTRSIDelta) then
    respond Http.StatusOK (GetTipInfoReturn false false true false)
  else
  cachedBundle <- call (CallGetCachedBundleOrNil (GetTxHash meta))
                       (GetCachedBundleOrNil node (GetTxHash meta)) ;;
  match cachedBundle with
  | None => respond Http.StatusBadRequest (ErrorReturn "unknown bundle")
  | Some bundle =>
  _ <- scanApprovees x node lsmi (approveeHashes node bundle) ;;
  respond Http.StatusOK (GetTipInfoReturn false false false false)
  end end end.

Definition getTransactionsToApprove (x : Externals) (node : Node)
    (i : Decoded GetTransactionsToApprove) : Handler Empty_set :=
  skipped <- call (CallIsSkipped urts_PLUGIN) (IsSkipped node urts_PLUGIN) ;;
  if skipped : bool then
    respond Http.StatusServiceUnavailable
      (ErrorReturn "tipselection plugin disabled in this node")
  else
  decoded <- call CallDecode i ;;
  match decoded with
  | DecodeErr err =>
      respond Http.StatusInternalServerError
        (ErrorReturn (ErrInternalError x ++ ": " ++ err)%string)
  | DecodeOk query =>
  selected <- call CallSelectNonLazyTips (SelectNonLazyTips node) ;;
  match selected with
  | inl err =>
      match err with
      | ErrNodeNotSynced | ErrNoTipsAvailable =>
          respond Http.StatusServiceUnavailable (ErrorReturn (Error x err))
      | ErrOther _ =>
          respond Http.StatusInternalServerError
            (ErrorReturn (ErrInternalError x ++ ": " ++ Error x err)%string)
      end
  | inr tips =>
  if Nat.ltb 0 (String.length (Reference query)) then
    valid <- call (CallIsTransactionHash (Reference query))
                  (Guards.IsTransactionHash (Reference query)) ;;
    if negb valid then
      respond Http.StatusBadRequest (ErrorReturn "invalid reference hash supplied")
    else
    trunk <- index tips 0 ;;
    respond Http.StatusOK
      (GetTransactionsToApproveReturn (Trytes x trunk) (Reference query))
  else
  trunk <- index tips 0 ;;
  branch <- index tips 1 ;;
  respond Http.StatusOK
    (GetTransactionsToApproveReturn (Trytes x trunk) (Trytes x branch))
  end end.

(* ===================================================================== *)
(** ** The echo router, as far as [configure] uses it *)
(* ===================================================================== *)

Module Echo.

Inductive Method : Type := GET | POST | DELETE.

Definition Method_eqb (a b : Method) : bool :=
  match a, b with
  | GET, GET | POST, POST | DELETE, DELETE => true
  | _, _ => false
  end.

(** A registered route: [group.GET(path, handler)] and the like. *)
Record Route (H : Type) : Type := {
  method : Method;
  path : string;
  handler : H
}.
Arguments method {H} _.
Arguments path {H} _.
Arguments handler {H} _.

(** The segments of a path, split at [/]. *)
Fixpoint segments (s : string) : list string :=
  match s with
  | EmptyString => [EmptyString]
  | String c rest =>
      if Ascii.eqb c "/" then EmptyString :: segments rest
      else match segments rest with
           | [] => [String c EmptyString]
           | seg :: segs => String c seg :: segs
           end
  end.

(** The bytes with a meaning of their own in a pattern: [:] starts a
    parameter and [*] matches any rest of a path. *)
Definition special (c : ascii) : bool := Ascii.eqb c ":" || Ascii.eqb c "*".

(** A text without [:] and [*]: the router compares it byte by byte. *)
Fixpoint plain (s : string) : bool :=
  match s with
  | EmptyString => true
  | String c rest => negb (special c) && plain rest
  end.

(** [:name], a whole segment, is a parameter. *)
Definition isParam (seg : string) : bool :=
  match seg with
  | String c _ => Ascii.eqb c ":"
  | EmptyString => false
  end.

(** The segments this model of the router covers: a plain one, or [:]
    followed by a plain name.  A [*], or a [:] inside a segment, is a
    pattern the model does not cover. *)
Definition coveredSegment (seg : string) : bool :=
  plain seg
  || match seg with
     | String c name => Ascii.eqb c ":" && plain name
     | EmptyString => false
     end.

(** The patterns the model covers: they start with [/] and all their
    segments are covered.  Every route of [configure] is such a pattern, and
    so is every route of [SetupApiRoutesV1] on a group whose prefix is plain
    and empty or starting with [/]. *)
Definition covered (pattern : string) : bool :=
  match pattern with
  | String c _ => Ascii.eqb c "/"
  | EmptyString => false
  end
  && forallb coveredSegment (segments pattern).

(** A plain segment of the pattern matches the same segment of the request.
    A parameter binds the segment at its place, up to the next [/]: any
    segment that is not empty, and an empty one when more of the path
    follows it. *)
Fixpoint matchSegments (pattern request : list string) : bool :=
  match pattern, request with
  | [], [] => true
  | p :: ps, r :: rs =>
      ((isParam p
        && (negb (String.eqb r "")
            || match rs with [] => false | _ :: _ => true end))
       || String.eqb p r)
      && matchSegments ps rs
  | _, _ => false
  end.

Definition matches (pattern request : string) : bool :=
  matchSegments (segments pattern) (segments request).

(** What the router does with a request: it runs the handler registered
    for the method and path, or answers by itself with [ErrNotFound] (no
    route has the path) or [ErrMethodNotAllowed] (routes have the path,
    none for the method).  [NotCovered] is no answer of the router: it
    marks a table with a pattern the model does not cover, about which
    nothing is stated. *)
Inductive Routed (H : Type) : Type :=
| Found (h : H)
| ErrNotFound
| ErrMethodNotAllowed
| NotCovered.
Arguments Found {H} h.
Arguments ErrNotFound {H}.
Arguments ErrMethodNotAllowed {H}.
Arguments NotCovered {H}.

Definition find {H : Type} (routes : list (Route H)) (m : Method)
    (request : string) : Routed H :=
  if forallb (fun r => covered (path r)) routes then
    match List.find (fun r => Method_eqb (method r) m && matches (path r) request)
                    routes with
    | Some r => Found (handler r)
    | None =>
        if existsb (fun r => matches (path r) request) routes
        then ErrMethodNotAllowed
        else ErrNotFound
    end
  else NotCovered.

(** The status the router answers with when it runs no handler. *)
Definition routerStatus {H : Type} (r : Routed H) : option Z :=
  match r with
  | Found _ => None
  | ErrNotFound => Some Http.StatusNotFound
  | ErrMethodNotAllowed => Some Http.StatusMethodNotAllowed
  | NotCovered => None
  end.

End Echo.

(* ===================================================================== *)
(** ** [plugins/restapi/v1/plugin.go] *)
(* ===================================================================== *)

Module RestAPI.

Definition ParameterMessageID := "messageID".
Definition ParameterOutputID := "outputID".
Definition ParameterAddress := "address".
Definition ParameterMilestoneIndex := "milestoneIndex".
Definition ParameterPeerID := "peerID".

Definition RouteInfo := "/info".
Definition RouteTips := "/tips".
Definition RouteSpammer := "/spammer".
Definition RouteMessageData := ("/messages/:" ++ ParameterMessageID)%string.
Definition RouteMessageMetadata :=
  ("/messages/:" ++ ParameterMessageID ++ "/metadata")%string.
Definition RouteMessageBytes :=
  ("/messages/:" ++ ParameterMessageID ++ "/raw")%string.
Definition RouteMessageChildren :=
  ("/messages/:" ++ ParameterMessageID ++ "/children")%string.
Definition RouteMessages := "/messages".
Definition RouteMilestone := ("/milestones/:" ++ ParameterMilestoneIndex)%string.
Definition RouteOutput := ("/outputs/:" ++ ParameterOutputID)%string.
Definition RouteAddressBalance := ("/addresses/:" ++ ParameterAddress)%string.
Definition RouteAddressOutputs :=
  ("/addresses/:" ++ ParameterAddress ++ "/outputs")%string.
Definition RoutePeer := ("/peers/:" ++ ParameterPeerID)%string.
Definition RoutePeers := "/peers".
Definition RouteControlDatabasePrune := "/control/database/prune".
Definition RouteControlSnapshotCreate := "/control/snapshots/create".
Definition RouteDebugSolidifer := "/debug/solidifer".
Definition RouteDebugOutputs := "/debug/outputs".
Definition RouteDebugOutputsUnspent := "/debug/outputs/unspent".
Definition RouteDebugOutputsSpent := "/debug/outputs/spent".
Definition RouteDebugMilestoneDiffs :=
  ("/debug/ms-diff/:" ++ ParameterMilestoneIndex)%string.
Definition RouteDebugRequests := "/debug/requests".
Definition RouteDebugMessageCone :=
  ("/debug/message-cones/:" ++ ParameterMessageID)%string.

(** The functions the routes of [configure] call. *)
Inductive Endpoint : Type :=
| info | tips | executeSpammerCommand | messageMetadataByID | messageByID
| messageBytesByID | childrenIDsByID | messageIDsByIndex | sendMessage
| milestoneByIndex | outputByID | balanceByAddress | outputsIDsByAddress
| getPeer | removePeer | listPeers | addPeer | pruneDatabase | createSnapshot
| triggerSolidifier | debugOutputsIDs | debugUnspentOutputsIDs
| debugSpentOutputsIDs | debugMilestoneDiff | debugRequests | debugMessageCone.

(** What [configure] leaves behind: the [features] list and the routes of
    the group [/api/v1], in the order they are registered. *)
Record Configured : Type := {
  features : list string;
  routes : list (Echo.Route Endpoint)
}.

Definition route (m : Echo.Method) (p : string) (e : Endpoint)
    : Echo.Route Endpoint :=
  {| Echo.method := m; Echo.path := ("/api/v1" ++ p)%string; Echo.handler := e |}.

Definition configure (node : Node) : Configured :=
  {| features := if CfgNodeEnableProofOfWork node then ["PoW"] else [];
     routes :=
       [route Echo.GET RouteInfo info]
       ++ (if negb (IsSkipped node urts_PLUGIN)
           then [route Echo.GET RouteTips tips] else [])
       ++ (if negb (IsSkipped node spammer_PLUGIN)
           then [route Echo.GET RouteSpammer executeSpammerCommand] else [])
       ++ [route Echo.GET RouteMessageMetadata messageMetadataByID;
           route Echo.GET RouteMessageData messageByID;
           route Echo.GET RouteMessageBytes messageBytesByID;
           route Echo.GET RouteMessageChildren childrenIDsByID;
           route Echo.GET RouteMessages messageIDsByIndex;
           route Echo.POST RouteMessages sendMessage;
           route Echo.GET RouteMilestone milestoneByIndex;
           route Echo.GET RouteOutput outputByID;
           route Echo.GET RouteAddressBalance balanceByAddress;
           route Echo.GET RouteAddressOutputs outputsIDsByAddress;
           route Echo.GET RoutePeer getPeer;
           route Echo.DELETE RoutePeer removePeer;
           route Echo.GET RoutePeers listPeers;
           route Echo.POST RoutePeers addPeer;
           route Echo.GET RouteControlDatabasePrune pruneDatabase;
           route Echo.GET RouteControlSnapshotCreate createSnapshot;
           route Echo.GET RouteDebugSolidifer triggerSolidifier;
           route Echo.GET RouteDebugOutputs debugOutputsIDs;
           route Echo.GET RouteDebugOutputsUnspent debugUnspentOutputsIDs;
           route Echo.GET RouteDebugOutputsSpent debugSpentOutputsIDs;
           route Echo.GET RouteDebugMilestoneDiffs debugMilestoneDiff;
           route Echo.GET RouteDebugRequests debugRequests;
           route Echo.GET RouteDebugMessageCone debugMessageCone] |}.

(** A request to the REST API of a configured node. *)
Definition serve (node : Node) (m : Echo.Method) (request : string)
    : Echo.Routed Endpoint :=
  Echo.find (routes (configure node)) m request.

End RestAPI.

(* ===================================================================== *)
(** ** The quantities the classification compares *)
(* ===================================================================== *)

(** [LSMI - OTRSI(tip)] and [LSMI - YTRSI(tip)], on [milestone.Index]. *)
Definition YTRSI (node : Node) (meta : Metadata) : Milestone.Index :=
  fst (GetTransactionRootSnapshotIndexes node meta (GetSolidMilestoneIndex node)).

Definition OTRSI (node : Node) (meta : Metadata) : Milestone.Index :=
  snd (GetTransactionRootSnapshotIndexes node meta (GetSolidMilestoneIndex node)).

Definition deltaOTRSI (node : Node) (meta : Metadata) : Milestone.Index :=
  Milestone.sub (GetSolidMilestoneIndex node) (OTRSI node meta).

Definition deltaYTRSI (node : Node) (meta : Metadata) : Milestone.Index :=
  Milestone.sub (GetSolidMilestoneIndex node) (YTRSI node meta).

(** The three thresholds, as the handler converts them. *)
Definition BMD (node : Node) : Milestone.Index :=
  Milestone.ofInt (GetInt node CfgTipSelBelowMaxDepth).

Definition MaxYTRSIDelta (node : Node) : Milestone.Index :=
  Milestone.ofInt (GetInt node CfgTipSelMaxDeltaTxYoungestRootSnapshotIndexToLSMI).

Definition MaxApproveeOTRSIDelta (node : Node) : Milestone.Index :=
  Milestone.ofInt
    (GetInt node CfgTipSelMaxDeltaTxApproveesOldestRootSnapshotIndexToLSMI).

(** The OTRSI an approvee contributes: the entry point index for a solid
    entry point, else the OTRSI of its metadata; none when the approvee is
    neither a solid entry point nor known. *)
Definition approveeOTRSI (node : Node) (h : Hash) : option Milestone.Index :=
  if SolidEntryPointsContain node h
  then Some (EntryPointIndex (GetSnapshotInfo node))
  else match GetCachedTxMetadataOrNil node h with
       | Some m => Some (OTRSI node m)
       | None => None
       end.

(** [LSMI - OTRSI(approvee) > MaxApproveeOTRSIDelta]. *)
Definition approveeTooOld (node : Node) (h : Hash) : bool :=
  match approveeOTRSI node h with
  | Some o =>
      Milestone.gtb (Milestone.sub (GetSolidMilestoneIndex node) o)
                    (MaxApproveeOTRSIDelta node)
  | None => false
  end.

(** The request [query] names a known solid tail with metadata [meta], on a
    node that serves [getTipInfo]: the plugin runs and the node is synced. *)
Definition SolidTail (x : Externals) (node : Node) (query : GetTipInfo)
    (meta : Metadata) : Prop :=
  IsSkipped node urts_PLUGIN = false
  /\ IsNodeSyncedWithThreshold node = true
  /\ Guards.IsTransactionHash (TailTransaction query) = true
  /\ GetCachedTxMetadataOrNil node (HashFromHashTrytes x (TailTransaction query))
     = Some meta
  /\ IsTail meta = true
  /\ IsSolid meta = true.

(** The calls [getTipInfo] makes until it holds the metadata of the tail. *)
Definition lookupCalls (x : Externals) (query : GetTipInfo) : list Call :=
  [CallIsSkipped urts_PLUGIN;
   CallIsNodeSyncedWithThreshold;
   CallDecode;
   CallIsTransactionHash (TailTransaction query);
   CallGetCachedTxMetadataOrNil (HashFromHashTrytes x (TailTransaction query))].

(** The calls that fetch the LSMI and the root snapshot indexes of the tail. *)
Definition indexCalls (node : Node) (meta : Metadata) : list Call :=
  [CallGetSolidMilestoneIndex;
   CallGetTransactionRootSnapshotIndexes meta (GetSolidMilestoneIndex node)].

(** The calls [getTransactionsToApprove] makes up to the tip selection. *)
Definition selectCalls : list Call :=
  [CallIsSkipped urts_PLUGIN; CallDecode; CallSelectNonLazyTips].

(** The status of an outcome, when the handler answered. *)
Definition statusOf (o : Outcome) : option Z :=
  match o with
  | JSON status _ => Some status
  | Panic => None
  end.

(* ===================================================================== *)
(** ** Example nodes *)
(* ===================================================================== *)

Module Examples.

Definition externals : Externals :=
  {| HashFromHashTrytes := fun trytes => trytes;
     Trytes := fun h => h;
     ErrInternalError := "internal error";
     ErrNodeNotSyncedText := "node is not synchronized";
     ErrNoTipsAvailableText := "no tips available" |}.

(** 81 times the same tryte. *)
Definition trytes81 (c : ascii) : string :=
  string_of_list_ascii (repeat c 81).

Definition tail : Hash := trytes81 "T".
Definition trunk : Hash := trytes81 "A".
Definition branch : Hash := trytes81 "B".

Fixpoint lookup {A : Type} (h : Hash) (l : list (Hash * A)) : option A :=
  match l with
  | [] => None
  | (k, v) :: rest => if String.eqb k h then Some v else lookup h rest
  end.

Definition meta (h : Hash) (isTail solid conflicting confirmed : bool)
    : Metadata :=
  {| GetTxHash := h; IsTail := isTail; IsSolid := solid;
     IsConflicting := conflicting; IsConfirmed := confirmed |}.

(** A solid tail that is neither confirmed nor conflicting. *)
Definition pending (h : Hash) : Metadata := meta h true true false false.

(** A node at LSMI 100 with the default thresholds 15, 8 and 13 and entry
    point index 50; [roots] gives (YTRSI, OTRSI) per transaction. *)
Definition node (urtsSkipped synced : bool)
    (metas : list (Hash * Metadata))
    (roots : list (Hash * (Z * Z)))
    (bundles : list (Hash * Bundle))
    (seps : list Hash)
    (selected : error + list Hash)
    (branchFirst : bool) : Node :=
  {| IsSkipped := fun p => match p with
                           | urts_PLUGIN => urtsSkipped
                           | spammer_PLUGIN => false
                           end;
     IsNodeSyncedWithThreshold := synced;
     GetCachedTxMetadataOrNil := fun h => lookup h metas;
     GetSolidMilestoneIndex := 100;
     GetTransactionRootSnapshotIndexes := fun m _ =>
       match lookup (GetTxHash m) roots with
       | Some idx => idx
       | None => (100, 100)
       end;
     GetInt := fun key =>
       match key with
       | CfgTipSelBelowMaxDepth => 15
       | CfgTipSelMaxDeltaTxYoungestRootSnapshotIndexToLSMI => 8
       | CfgTipSelMaxDeltaTxApproveesOldestRootSnapshotIndexToLSMI => 13
       end;
     GetCachedBundleOrNil := fun h => lookup h bundles;
     SolidEntryPointsContain := fun h => existsb (String.eqb h) seps;
     GetSnapshotInfo := {| EntryPointIndex := 50 |};
     SelectNonLazyTips := selected;
     CfgNodeEnableProofOfWork := true;
     rangeBranchFirst := branchFirst |}.

Definition tipQuery : GetTipInfo := {| TailTransaction := tail |}.

(** The tail is confirmed and conflicting. *)
Definition nodeConflicting : Node :=
  node false true [(tail, meta tail true true true true)] [] [] []
       (inr [trunk; branch]) false.

(** OTRSI 80 and YTRSI 85: below max depth (20 > 15), and the YTRSI delta
    (15 > 8) is over its threshold as well. *)
Definition nodeBelowMaxDepth : Node :=
  node false true [(tail, pending tail)] [(tail, (85, 80))] [] []
       (inr [trunk; branch]) false.

(** OTRSI 90 and YTRSI 91: within max depth (10), YTRSI delta 9 > 8. *)
Definition nodeOldYoungest : Node :=
  node false true [(tail, pending tail)] [(tail, (91, 90))] [] []
       (inr [trunk; branch]) false.

Definition bundle : Bundle :=
  {| GetTrunkHash := trunk; GetBranchHash := branch |}.

(** The tail passes both tests (deltas 5 and 2); the trunk is a solid
    entry point (delta 50 > 13), the branch is recent (delta 1). *)
Definition nodeSemiLazy (branchFirst : bool) : Node :=
  node false true
       [(tail, pending tail); (branch, pending branch)]
       [(tail, (98, 95)); (branch, (99, 99))]
       [(tail, bundle)] [trunk] (inr [trunk; branch]) branchFirst.

(** As before, but the trunk is recent too. *)
Definition nodeNonLazy : Node :=
  node false true
       [(tail, pending tail); (trunk, pending trunk); (branch, pending branch)]
       [(tail, (98, 95)); (trunk, (99, 98)); (branch, (99, 99))]
       [(tail, bundle)] [] (inr [trunk; branch]) false.

(** The tail passes both tests, its bundle is known, and the node knows
    neither approvee: both are the transaction [trunk], which is no solid
    entry point and has no metadata. *)
Definition nodeMissingApprovee : Node :=
  node false true [(tail, pending tail)] [(tail, (98, 95))]
       [(tail, {| GetTrunkHash := trunk; GetBranchHash := trunk |})] []
       (inr [trunk; branch]) false.

(** The trunk is a solid entry point and too old (delta 50 > 13); the
    branch is no solid entry point and has no metadata. *)
Definition nodeOldTrunkMissingBranch (branchFirst : bool) : Node :=
  node false true [(tail, pending tail)] [(tail, (98, 95))]
       [(tail, bundle)] [trunk] (inr [trunk; branch]) branchFirst.

(** The tail passes both tests and has no bundle. *)
Definition nodeNoBundle : Node :=
  node false true [(tail, pending tail)] [(tail, (98, 95))] [] []
       (inr [trunk; branch]) false.

(** The node is not synced. *)
Definition nodeNotSynced : Node :=
  node false false [(tail, pending tail)] [] [] [] (inl ErrNodeNotSynced) false.

(** The tip selection plugin is disabled. *)
Definition nodeDisabled : Node :=
  node true true [(tail, pending tail)] [] [] [] (inr [trunk; branch]) false.

(** Nodes for the four client faults. *)
Definition nodeUnknown : Node :=
  node false true [] [] [] [] (inr [trunk; branch]) false.
Definition nodeNotATail : Node :=
  node false true [(tail, meta tail false false false false)] [] [] []
       (inr [trunk; branch]) false.
Definition nodeNotSolid : Node :=
  node false true [(tail, meta tail true false false false)] [] [] []
       (inr [trunk; branch]) false.

(** Nodes whose tip selection succeeds or fails. *)
Definition nodeSelecting : Node :=
  node false true [] [] [] [] (inr [trunk; branch]) false.
Definition nodeFailing (err : error) : Node :=
  node false true [] [] [] [] (inl err) false.

Definition validReference : GetTransactionsToApprove :=
  {| Reference := tail |}.
Definition malformedReference : GetTransactionsToApprove :=
  {| Reference := "not a hash" |}.

End Examples.

(* ===================================================================== *)
(** ** The shape of the answers *)
(* ===================================================================== *)

(** How many of the flags are set. *)
Definition flagsSet (flags : list bool) : nat :=
  List.length (filter (fun b : bool => b) flags).

(** What [getTipInfo] may answer: 200 with a tip info in which at most one
    of the four flags is set, or 400, 500 or 503 with an error message. *)
Definition tipInfoAnswer (o : Outcome) : bool :=
  match o with
  | JSON status (GetTipInfoReturn confirmed conflicting promote reattach) =>
      (status =? Http.StatusOK)
      && Nat.leb (flagsSet [confirmed; conflicting; promote; reattach]) 1
  | JSON status (ErrorReturn _) =>
      (status =? Http.StatusBadRequest)
      || (status =? Http.StatusInternalServerError)
      || (status =? Http.StatusServiceUnavailable)
  | JSON _ (GetTransactionsToApproveReturn _ _) => false
  | Panic => false
  end.

(** What [getTransactionsToApprove] may answer when it does not panic: 200
    with two transactions, or 400, 500 or 503 with an error message. *)
Definition approveAnswer (o : Outcome) : bool :=
  match o with
  | JSON status (GetTransactionsToApproveReturn _ _) => status =? Http.StatusOK
  | JSON status (ErrorReturn _) =>
      (status =? Http.StatusBadRequest)
      || (status =? Http.StatusInternalServerError)
      || (status =? Http.StatusServiceUnavailable)
  | JSON _ (GetTipInfoReturn _ _ _ _) => false
  | Panic => false
  end.

(* ===================================================================== *)
(** ** Routes on a group *)
(* ===================================================================== *)

(** The route [r] registered on the group with the prefix [group]. *)
Definition inGroup {H : Type} (group : string) (r : Echo.Route H)
    : Echo.Route H :=
  {| Echo.method := Echo.method r;
     Echo.path := (group ++ Echo.path r)%string;
     Echo.handler := Echo.handler r |}.

(** The path starts with [/], as the routes of a group do. *)
Definition rooted (p : string) : bool :=
  match p with
  | String c _ => Ascii.eqb c "/"
  | EmptyString => false
  end.

(* ===================================================================== *)
(** ** [plugins/restapi/v1/v1.go] *)
(* ===================================================================== *)

Module RestAPIv1.

Definition ParameterMessageID := "messageID".
Definition ParameterOutputID := "outputID".
Definition ParameterAddress := "address".
Definition ParameterMilestoneIndex := "milestoneIndex".
Definition ParameterPeerID := "peerID".

Definition RouteInfo := "/info".
Definition RouteTips := "/tips".
Definition RouteMessage := ("/message/:" ++ ParameterMessageID)%string.
Definition RouteMessageData := ("/message/:" ++ ParameterMessageID ++ "/data")%string.
Definition RouteMessageBytes := ("/message/:" ++ ParameterMessageID ++ "/raw")%string.
Definition RouteMessageChildren :=
  ("/message/:" ++ ParameterMessageID ++ "/children")%string.
Definition RouteMessages := "/messages".
Definition RouteMilestone := ("/milestone/:" ++ ParameterMilestoneIndex)%string.
Definition RouteOutput := ("/output/:" ++ ParameterOutputID)%string.
Definition RouteAddressBalance := ("/address/:" ++ ParameterAddress)%string.
Definition RouteAddressOutputs :=
  ("/address/:" ++ ParameterAddress ++ "/outputs")%string.
Definition RoutePeer := ("/peer/:" ++ ParameterPeerID)%string.
Definition RoutePeers := "/peers".
Definition RouteDebugOutputs := "/debug/outputs".
Definition RouteDebugOutputsUnspent := "/debug/outputs/unspent".
Definition RouteDebugOutputsSpent := "/debug/outputs/spent".
Definition RouteDebugMilestoneDiffs :=
  ("/debug/ms-diff/:" ++ ParameterMilestoneIndex)%string.
Definition RouteDebugRequests := "/debug/requests".
Definition RouteDebugMessageCone :=
  ("/debug/message-cone/:" ++ ParameterMessageID)%string.

(** [routeGroup.GET(p, ...)] and the like on a group with the prefix
    [group]. *)
Definition route (group : string) (m : Echo.Method) (p : string)
    (e : RestAPI.Endpoint) : Echo.Route RestAPI.Endpoint :=
  {| Echo.method := m; Echo.path := (group ++ p)%string; Echo.handler := e |}.

(** [SetupApiRoutesV1(routeGroup)].  [runAsEntryNode] is
    [config.NodeConfig.GetBool(config.CfgNetAutopeeringRunAsEntryNode)] and
    [group] the prefix of [routeGroup].  The branch for the spammer plugin
    is empty in the source (its only statement is commented out). *)
Definition SetupApiRoutesV1 (node : Node) (runAsEntryNode : bool)
    (group : string) : RestAPI.Configured :=
  {| RestAPI.features :=
       if negb runAsEntryNode
       then (if CfgNodeEnableProofOfWork node then ["PoW"] else [])
       else [];
     RestAPI.routes :=
       (if negb (IsSkipped node spammer_PLUGIN) then [] else [])
       ++ [route group Echo.GET RouteInfo RestAPI.info]
       ++ (if negb (IsSkipped node urts_PLUGIN)
           then [route group Echo.GET RouteTips RestAPI.tips] else [])
       ++ [route group Echo.GET RouteMessage RestAPI.messageMetadataByID;
           route group Echo.GET RouteMessageData RestAPI.messageByID;
           route group Echo.GET RouteMessageBytes RestAPI.messageBytesByID;
           route group Echo.GET RouteMessageChildren RestAPI.childrenIDsByID;
           route group Echo.GET RouteMessages RestAPI.messageIDsByIndex;
           route group Echo.POST RouteMessages RestAPI.sendMessage;
           route group Echo.GET RouteMilestone RestAPI.milestoneByIndex;
           route group Echo.GET RouteOutput RestAPI.outputByID;
           route group Echo.GET RouteAddressBalance RestAPI.balanceByAddress;
           route group Echo.GET RouteAddressOutputs RestAPI.outputsIDsByAddress;
           route group Echo.GET RouteDebugOutputs RestAPI.debugOutputsIDs;
           route group Echo.GET RouteDebugOutputsUnspent
                 RestAPI.debugUnspentOutputsIDs;
           route group Echo.GET RouteDebugOutputsSpent
                 RestAPI.debugSpentOutputsIDs;
           route group Echo.GET RouteDebugMilestoneDiffs
                 RestAPI.debugMilestoneDiff;
           route group Echo.GET RouteDebugRequests RestAPI.debugRequests;
           route group Echo.GET RouteDebugMessageCone RestAPI.debugMessageCone] |}.

(** A request to a node whose routes were set up on the group [group]. *)
Definition serve (node : Node) (runAsEntryNode : bool) (group : string)
    (m : Echo.Method) (request : string) : Echo.Routed RestAPI.Endpoint :=
  Echo.find (RestAPI.routes (SetupApiRoutesV1 node runAsEntryNode group))
            m request.

End RestAPIv1.

(* ===================================================================== *)
(** ** More example nodes *)
(* ===================================================================== *)

Module MoreExamples.

(** The tail is confirmed and does not conflict. *)
Definition nodeConfirmed : Node :=
  Examples.node false true
    [(Examples.tail, Examples.meta Examples.tail true true false true)]
    [] [] [] (inr [Examples.trunk; Examples.branch]) false.

(** The OTRSI of the tail (101) is ahead of the LSMI (100). *)
Definition nodeAhead : Node :=
  Examples.node false true
    [(Examples.tail, Examples.pending Examples.tail)]
    [(Examples.tail, (101, 101))] [] []
    (inr [Examples.trunk; Examples.branch]) false.

(** The selector returns a single tip. *)
Definition nodeOneTip : Node :=
  Examples.node false true [] [] [] [] (inr [Examples.trunk]) false.

(** The selector returns no tip and no error. *)
Definition nodeNoTip : Node :=
  Examples.node false true [] [] [] [] (inr []) false.

(** The spammer plugin and the tip selection plugin are both disabled. *)
Definition nodeBare : Node :=
  {| IsSkipped := fun _ => true;
     IsNodeSyncedWithThreshold := true;
     GetCachedTxMetadataOrNil := fun _ => None;
     GetSolidMilestoneIndex := 100;
     GetTransactionRootSnapshotIndexes := fun _ _ => (100, 100);
     GetInt := fun _ => 15;
     GetCachedBundleOrNil := fun _ => None;
     SolidEntryPointsContain := fun _ => false;
     GetSnapshotInfo := {| EntryPointIndex := 50 |};
     SelectNonLazyTips := inl ErrNoTipsAvailable;
     CfgNodeEnableProofOfWork := false;
     rangeBranchFirst := false |}.

Definition noReference : GetTransactionsToApprove := {| Reference := "" |}.

End MoreExamples.

(* ===================================================================== *)
(** ** Reasoning about handlers *)
(* ===================================================================== *)

Arguments Guards.IsTransactionHash : simpl never.
Arguments Milestone.sub : simpl never.
Arguments Milestone.ofInt : simpl never.
Arguments Milestone.gtb : simpl never.

Lemma gtb_true (a b : Milestone.Index) : b < a -> Milestone.gtb a b = true.
Proof. intros H. unfold Milestone.gtb. now apply Z.ltb_lt. Qed.

Lemma gtb_false (a b : Milestone.Index) : a <= b -> Milestone.gtb a b = false.
Proof. intros H. unfold Milestone.gtb. now apply Z.ltb_ge. Qed.

Lemma gtb_lt (a b : Milestone.Index) : Milestone.gtb a b = true <-> b < a.
Proof. unfold Milestone.gtb. apply Z.ltb_lt. Qed.

(** Without wrap-around the difference of two indexes is the integer one. *)
Lemma sub_no_wrap (a b : Milestone.Index) :
  Milestone.inRange a -> 0 <= b <= a -> Milestone.sub a b = a - b.
Proof.
  unfold Milestone.inRange, Milestone.sub, Milestone.wrap. intros Ha Hb.
  apply Z.mod_small. lia.
Qed.

(** A threshold that fits a [uint32] is converted unchanged. *)
Lemma ofInt_in_range (n : Z) : Milestone.inRange n -> Milestone.ofInt n = n.
Proof.
  unfold Milestone.inRange, Milestone.ofInt, Milestone.wrap. intros Hn.
  now apply Z.mod_small.
Qed.

(** Rewrite with every equation at hand, then compute the handler on. *)
Ltac rewrite_known :=
  repeat match goal with
         | H : ?l = _ |- context [?l] => rewrite H
         end.

Ltac handler := repeat (progress (cbn; rewrite_known)).

(** Facts about an example node hold by computation. *)
Ltac by_computation :=
  first [ reflexivity
        | vm_compute; reflexivity
        | vm_compute; discriminate
        | repeat split; vm_compute; reflexivity ].

Ltac solid_tail H :=
  let Hskip := fresh "Hskip" in
  let Hsync := fresh "Hsync" in
  let Hvalid := fresh "Hvalid" in
  let Hmeta := fresh "Hmeta" in
  let Htail := fresh "Htail" in
  let Hsolid := fresh "Hsolid" in
  destruct H as (Hskip & Hsync & Hvalid & Hmeta & Htail & Hsolid).

(* ===================================================================== *)
(** ** [getTipInfo]: confirmed and conflicting tails *)
(* ===================================================================== *)

(** C1. For a solid tail that is marked confirmed and conflicting,
    [getTipInfo] answers 200 with [confirmed = false], [conflicting = true],
    [shouldPromote = false], [shouldReattach = false].  The handler stops
    after the metadata lookup: it reads neither the LSMI, nor the root
    snapshot indexes, nor a threshold, nor the bundle. *)
Theorem getTipInfo_confirmed_conflicting
    (x : Externals) (node : Node) (query : GetTipInfo) (meta : Metadata) :
  SolidTail x node query meta ->
  IsConfirmed meta = true ->
  IsConflicting meta = true ->
  run (getTipInfo x node (DecodeOk query))
  = (lookupCalls x query,
     JSON Http.StatusOK (GetTipInfoReturn false true false false)).
Proof.
  intros Hs Hconfirmed Hconflicting. solid_tail Hs.
  unfold getTipInfo, lookupCalls. handler. reflexivity.
Qed.

Lemma getTipInfo_confirmed_conflicting_witness :
  run (getTipInfo Examples.externals Examples.nodeConflicting
                  (DecodeOk Examples.tipQuery))
  = (lookupCalls Examples.externals Examples.tipQuery,
     JSON Http.StatusOK (GetTipInfoReturn false true false false)).
Proof.
  apply (getTipInfo_confirmed_conflicting Examples.externals
           Examples.nodeConflicting Examples.tipQuery
           (Examples.meta Examples.tail true true true true)).
  - repeat split; vm_compute; reflexivity.
  - reflexivity.
  - reflexivity.
Defined.

(* ===================================================================== *)
(** ** [getTipInfo]: the below-max-depth test *)
(* ===================================================================== *)

(** C2. For a solid tail that is neither confirmed nor conflicting and whose
    delta [LSMI - OTRSI(tip)] (computed on [milestone.Index], as the handler
    does) is over the threshold BMD, [getTipInfo] answers
    200 with [shouldReattach = true] and the three other flags false.  The
    last call of the handler reads the BMD threshold: the answer is given
    before the [MaxYTRSIDelta] threshold is read and before the bundle and
    the approvees are looked up, whatever those would have shown. *)
Theorem getTipInfo_below_max_depth
    (x : Externals) (node : Node) (query : GetTipInfo) (meta : Metadata) :
  SolidTail x node query meta ->
  IsConfirmed meta = false ->
  IsConflicting meta = false ->
  BMD node < deltaOTRSI node meta ->
  run (getTipInfo x node (DecodeOk query))
  = (lookupCalls x query ++ indexCalls node meta
       ++ [CallGetInt CfgTipSelBelowMaxDepth],
     JSON Http.StatusOK (GetTipInfoReturn false false false true)).
Proof.
  intros Hs Hconfirmed Hconflicting Hbmd. solid_tail Hs.
  apply gtb_true in Hbmd. unfold deltaOTRSI, OTRSI, BMD in Hbmd.
  unfold getTipInfo, lookupCalls, indexCalls. handler. reflexivity.
Qed.

Lemma getTipInfo_below_max_depth_witness :
  (MaxYTRSIDelta Examples.nodeBelowMaxDepth
   < deltaYTRSI Examples.nodeBelowMaxDepth (Examples.pending Examples.tail))
  /\ run (getTipInfo Examples.externals Examples.nodeBelowMaxDepth
                     (DecodeOk Examples.tipQuery))
     = (lookupCalls Examples.externals Examples.tipQuery
          ++ indexCalls Examples.nodeBelowMaxDepth (Examples.pending Examples.tail)
          ++ [CallGetInt CfgTipSelBelowMaxDepth],
        JSON Http.StatusOK (GetTipInfoReturn false false false true)).
Proof.
  split.
  - vm_compute. reflexivity.
  - apply (getTipInfo_below_max_depth Examples.externals
             Examples.nodeBelowMaxDepth Examples.tipQuery
             (Examples.pending Examples.tail)).
    + repeat split; vm_compute; reflexivity.
    + reflexivity.
    + reflexivity.
    + vm_compute. reflexivity.
Defined.

(* ===================================================================== *)
(** ** [getTipInfo]: the youngest root snapshot index test *)
(* ===================================================================== *)

(** C3. For a solid tail that is neither confirmed nor conflicting, whose
    delta [LSMI - OTRSI(tip)] is not over BMD and whose delta
    [LSMI - YTRSI(tip)] is over [MaxYTRSIDelta], [getTipInfo] answers 200 with
    [shouldPromote = true] and the three other flags false.  The handler
    stops after reading the two thresholds: neither the bundle nor an
    approvee is looked up. *)
Theorem getTipInfo_youngest_too_old
    (x : Externals) (node : Node) (query : GetTipInfo) (meta : Metadata) :
  SolidTail x node query meta ->
  IsConfirmed meta = false ->
  IsConflicting meta = false ->
  deltaOTRSI node meta <= BMD node ->
  MaxYTRSIDelta node < deltaYTRSI node meta ->
  run (getTipInfo x node (DecodeOk query))
  = (lookupCalls x query ++ indexCalls node meta
       ++ [CallGetInt CfgTipSelBelowMaxDepth;
           CallGetInt CfgTipSelMaxDeltaTxYoungestRootSnapshotIndexToLSMI],
     JSON Http.StatusOK (GetTipInfoReturn false false true false)).
Proof.
  intros Hs Hconfirmed Hconflicting Hbmd Hy. solid_tail Hs.
  apply gtb_false in Hbmd. unfold deltaOTRSI, OTRSI, BMD in Hbmd.
  apply gtb_true in Hy. unfold deltaYTRSI, YTRSI, MaxYTRSIDelta in Hy.
  unfold getTipInfo, lookupCalls, indexCalls. handler. reflexivity.
Qed.

Lemma getTipInfo_youngest_too_old_witness :
  run (getTipInfo Examples.externals Examples.nodeOldYoungest
                  (DecodeOk Examples.tipQuery))
  = (lookupCalls Examples.externals Examples.tipQuery
       ++ indexCalls Examples.nodeOldYoungest (Examples.pending Examples.tail)
       ++ [CallGetInt CfgTipSelBelowMaxDepth;
           CallGetInt CfgTipSelMaxDeltaTxYoungestRootSnapshotIndexToLSMI],
     JSON Http.StatusOK (GetTipInfoReturn false false true false)).
Proof.
  apply (getTipInfo_youngest_too_old Examples.externals
           Examples.nodeOldYoungest Examples.tipQuery
           (Examples.pending Examples.tail)).
  - repeat split; vm_compute; reflexivity.
  - reflexivity.
  - reflexivity.
  - vm_compute. discriminate.
  - vm_compute. reflexivity.
Defined.

(* ===================================================================== *)
(** ** [getTipInfo]: the scan of the approvees *)
(* ===================================================================== *)

(** The outcome of a computation, without its trace. *)
Lemma snd_bind {A B : Type} (m : Handler A) (k : A -> Handler B) :
  snd (bind m k)
  = match snd m with
    | inl o => inl o
    | inr a => snd (k a)
    end.
Proof.
  destruct m as [t [o | a]]; cbn; [reflexivity |].
  destruct (k a); reflexivity.
Qed.

Lemma snd_run (h : Handler Empty_set) (o : Outcome) :
  snd h = inl o -> snd (run h) = o.
Proof. destruct h as [t [o' | []]]; cbn. congruence. Qed.

(** When every approvee in the list is a solid entry point or known, the
    loop ends the handler with [shouldPromote = true] as soon as it meets an
    approvee that is too old, and falls through otherwise. *)
Lemma scanApprovees_outcome (x : Externals) (node : Node) (hashes : list Hash) :
  (forall h, In h hashes -> approveeOTRSI node h <> None) ->
  snd (scanApprovees x node (GetSolidMilestoneIndex node) hashes)
  = if existsb (approveeTooOld node) hashes
    then inl (JSON Http.StatusOK (GetTipInfoReturn false false true false))
    else inr tt.
Proof.
  induction hashes as [| h rest IH]; intros Hknown; [reflexivity |].
  assert (Hh : approveeOTRSI node h <> None) by (apply Hknown; now left).
  assert (Hrest : forall h', In h' rest -> approveeOTRSI node h' <> None)
    by (intros h' Hin; apply Hknown; now right).
  specialize (IH Hrest).
  cbn [scanApprovees existsb].
  rewrite !snd_bind. cbn [call snd].
  unfold approveeTooOld at 1. unfold approveeOTRSI in Hh |- *.
  destruct (SolidEntryPointsContain node h).
  - rewrite !snd_bind. cbn [call ret snd]. rewrite !snd_bind. cbn [call snd].
    unfold MaxApproveeOTRSIDelta.
    destruct (Milestone.gtb _ _); [reflexivity | exact IH].
  - rewrite !snd_bind. cbn [call snd].
    destruct (GetCachedTxMetadataOrNil node h) as [m |]; [| congruence].
    rewrite !snd_bind. cbn [call ret snd]. rewrite !snd_bind. cbn [call snd].
    unfold MaxApproveeOTRSIDelta, OTRSI.
    destruct (Milestone.gtb _ _); [reflexivity | exact IH].
Qed.

(** The order in which the map yields the approvees, and whether it holds
    one key or two, does not change whether one of them is too old. *)
Lemma existsb_approveeHashes (node : Node) (b : Bundle) (f : Hash -> bool) :
  existsb f (approveeHashes node b) = existsb f [GetTrunkHash b; GetBranchHash b].
Proof.
  unfold approveeHashes.
  destruct (String.eqb_spec (GetTrunkHash b) (GetBranchHash b)) as [Heq | Hne].
  - rewrite <- Heq. cbn. now destruct (f (GetTrunkHash b)).
  - destruct (rangeBranchFirst node); cbn; [| reflexivity].
    now destruct (f (GetTrunkHash b)), (f (GetBranchHash b)).
Qed.

Lemma In_approveeHashes (node : Node) (b : Bundle) (h : Hash) :
  In h (approveeHashes node b) -> In h [GetTrunkHash b; GetBranchHash b].
Proof.
  unfold approveeHashes.
  destruct (String.eqb (GetTrunkHash b) (GetBranchHash b));
    [| destruct (rangeBranchFirst node)]; cbn; tauto.
Qed.

(** C4, amended. For a solid tail that is neither confirmed nor conflicting,
    passes the BMD and the [MaxYTRSIDelta] tests, whose bundle is known and
    whose two approvees are each a solid entry point or a known transaction,
    [getTipInfo] answers 200 with [confirmed], [conflicting] and
    [shouldReattach] false, and with [shouldPromote = true] if and only if
    some approvee (trunk or branch) has
    [LSMI - OTRSI(approvee) > MaxApproveeOTRSIDelta], where a solid entry
    point contributes the entry point index as its OTRSI.  This holds for
    either order in which the map of approvees is traversed. *)
Theorem getTipInfo_approvee_scan
    (x : Externals) (node : Node) (query : GetTipInfo) (meta : Metadata)
    (bundle : Bundle) :
  SolidTail x node query meta ->
  IsConfirmed meta = false ->
  IsConflicting meta = false ->
  deltaOTRSI node meta <= BMD node ->
  deltaYTRSI node meta <= MaxYTRSIDelta node ->
  GetCachedBundleOrNil node (GetTxHash meta) = Some bundle ->
  (forall h, In h [GetTrunkHash bundle; GetBranchHash bundle] ->
             approveeOTRSI node h <> None) ->
  exists promote : bool,
    snd (run (getTipInfo x node (DecodeOk query)))
    = JSON Http.StatusOK (GetTipInfoReturn false false promote false)
    /\ (promote = true <->
        exists h o,
          In h [GetTrunkHash bundle; GetBranchHash bundle]
          /\ approveeOTRSI node h = Some o
          /\ MaxApproveeOTRSIDelta node
             < Milestone.sub (GetSolidMilestoneIndex node) o).
Proof.
  intros Hs Hconfirmed Hconflicting Hbmd Hy Hbundle Hknown. solid_tail Hs.
  apply gtb_false in Hbmd. unfold deltaOTRSI, OTRSI, BMD in Hbmd.
  apply gtb_false in Hy. unfold deltaYTRSI, YTRSI, MaxYTRSIDelta in Hy.
  exists (existsb (approveeTooOld node)
                  [GetTrunkHash bundle; GetBranchHash bundle]).
  split.
  - apply snd_run. unfold getTipInfo.
    repeat (rewrite snd_bind; cbn [call snd]; rewrite_known;
            cbn [negb andb orb]).
    rewrite scanApprovees_outcome, existsb_approveeHashes.
    + destruct (existsb _ _); reflexivity.
    + intros h Hin. apply Hknown. now apply In_approveeHashes in Hin.
  - rewrite existsb_exists. unfold approveeTooOld.
    split.
    + intros (h & Hin & Hold). destruct (approveeOTRSI node h) as [o |] eqn:Ho;
        [| discriminate].
      exists h, o. repeat split; trivial. now apply gtb_lt.
    + intros (h & o & Hin & Ho & Hold). exists h. split; [exact Hin |].
      rewrite Ho. now apply gtb_true.
Qed.

Lemma getTipInfo_approvee_scan_witness :
  snd (run (getTipInfo Examples.externals (Examples.nodeSemiLazy false)
                       (DecodeOk Examples.tipQuery)))
  = JSON Http.StatusOK (GetTipInfoReturn false false true false)
  /\ snd (run (getTipInfo Examples.externals (Examples.nodeSemiLazy true)
                          (DecodeOk Examples.tipQuery)))
     = JSON Http.StatusOK (GetTipInfoReturn false false true false)
  /\ snd (run (getTipInfo Examples.externals Examples.nodeNonLazy
                          (DecodeOk Examples.tipQuery)))
     = JSON Http.StatusOK (GetTipInfoReturn false false false false).
Proof.
  split; [| split].
  - destruct (getTipInfo_approvee_scan Examples.externals
                (Examples.nodeSemiLazy false) Examples.tipQuery
                (Examples.pending Examples.tail) Examples.bundle)
      as ([|] & Hrun & _);
      [ by_computation | by_computation | by_computation | by_computation
        | by_computation | by_computation
        | intros h [<- | [<- | []]]; by_computation
        | exact Hrun
        | vm_compute in Hrun; discriminate Hrun ].
  - destruct (getTipInfo_approvee_scan Examples.externals
                (Examples.nodeSemiLazy true) Examples.tipQuery
                (Examples.pending Examples.tail) Examples.bundle)
      as ([|] & Hrun & _);
      [ by_computation | by_computation | by_computation | by_computation
        | by_computation | by_computation
        | intros h [<- | [<- | []]]; by_computation
        | exact Hrun
        | vm_compute in Hrun; discriminate Hrun ].
  - destruct (getTipInfo_approvee_scan Examples.externals
                Examples.nodeNonLazy Examples.tipQuery
                (Examples.pending Examples.tail) Examples.bundle)
      as ([|] & Hrun & _);
      [ by_computation | by_computation | by_computation | by_computation
        | by_computation | by_computation
        | intros h [<- | [<- | []]]; by_computation
        | vm_compute in Hrun; discriminate Hrun
        | exact Hrun ].
Defined.

(** C4 as stated fails.  The solid tail of [nodeMissingApprovee] is neither
    confirmed nor conflicting and passes the BMD and the [MaxYTRSIDelta]
    tests, its bundle is known, but its approvee is no solid entry point and
    has no metadata: [getTipInfo] answers 400 "approvee transaction not
    found", which is neither [shouldPromote = true] nor the answer with all
    four flags false.  The same happens in [nodeOldTrunkMissingBranch] when
    the map yields the unknown branch before the trunk, although the trunk
    is too old; when it yields the trunk first the answer is
    [shouldPromote = true]. *)
Lemma getTipInfo_missing_approvee :
  SolidTail Examples.externals Examples.nodeMissingApprovee Examples.tipQuery
            (Examples.pending Examples.tail)
  /\ IsConfirmed (Examples.pending Examples.tail) = false
  /\ IsConflicting (Examples.pending Examples.tail) = false
  /\ deltaOTRSI Examples.nodeMissingApprovee (Examples.pending Examples.tail)
     <= BMD Examples.nodeMissingApprovee
  /\ deltaYTRSI Examples.nodeMissingApprovee (Examples.pending Examples.tail)
     <= MaxYTRSIDelta Examples.nodeMissingApprovee
  /\ snd (run (getTipInfo Examples.externals Examples.nodeMissingApprovee
                          (DecodeOk Examples.tipQuery)))
     = JSON Http.StatusBadRequest
         (ErrorReturn ("approvee transaction not found: " ++ Examples.trunk)%string)
  /\ (forall promote : bool,
        snd (run (getTipInfo Examples.externals Examples.nodeMissingApprovee
                             (DecodeOk Examples.tipQuery)))
        <> JSON Http.StatusOK (GetTipInfoReturn false false promote false))
  /\ approveeTooOld (Examples.nodeOldTrunkMissingBranch true) Examples.trunk
     = true
  /\ snd (run (getTipInfo Examples.externals
                 (Examples.nodeOldTrunkMissingBranch true)
                 (DecodeOk Examples.tipQuery)))
     = JSON Http.StatusBadRequest
         (ErrorReturn ("approvee transaction not found: " ++ Examples.branch)%string)
  /\ snd (run (getTipInfo Examples.externals
                 (Examples.nodeOldTrunkMissingBranch false)
                 (DecodeOk Examples.tipQuery)))
     = JSON Http.StatusOK (GetTipInfoReturn false false true false).
Proof.
  repeat split; try (vm_compute; reflexivity); try (vm_compute; discriminate).
Qed.

(* ===================================================================== *)
(** ** [getTransactionsToApprove] *)
(* ===================================================================== *)

(** C5. On a node that serves the request (the plugin runs, the request
    decodes, the tip selection succeeded), a request with a non-empty
    reference is answered as follows.  If the reference is a syntactically
    valid transaction hash, the answer is 200 with the first selected tip as
    trunk and the reference itself as branch; the only call made about the
    reference is the syntax check, so no transaction is looked up for it.
    If the reference is malformed, the answer is 400 "invalid reference hash
    supplied". *)
Theorem getTransactionsToApprove_reference
    (x : Externals) (node : Node) (query : GetTransactionsToApprove)
    (tips : list Hash) :
  IsSkipped node urts_PLUGIN = false ->
  SelectNonLazyTips node = inr tips ->
  Reference query <> "" ->
  (Guards.IsTransactionHash (Reference query) = true ->
   forall (tip0 : Hash) (rest : list Hash), tips = tip0 :: rest ->
     run (getTransactionsToApprove x node (DecodeOk query))
     = (selectCalls ++ [CallIsTransactionHash (Reference query)],
        JSON Http.StatusOK
          (GetTransactionsToApproveReturn (Trytes x tip0) (Reference query))))
  /\ (Guards.IsTransactionHash (Reference query) = false ->
      run (getTransactionsToApprove x node (DecodeOk query))
      = (selectCalls ++ [CallIsTransactionHash (Reference query)],
         JSON Http.StatusBadRequest
           (ErrorReturn "invalid reference hash supplied"))).
Proof.
  intros Hskip Hselect Hreference.
  destruct (Reference query) as [| c s] eqn:Hquery; [congruence |].
  split.
  - intros Hvalid tip0 rest ->.
    unfold getTransactionsToApprove, selectCalls. handler. reflexivity.
  - intros Hvalid.
    unfold getTransactionsToApprove, selectCalls. handler. reflexivity.
Qed.

Lemma getTransactionsToApprove_reference_witness :
  run (getTransactionsToApprove Examples.externals Examples.nodeSelecting
         (DecodeOk Examples.validReference))
  = (selectCalls ++ [CallIsTransactionHash Examples.tail],
     JSON Http.StatusOK
       (GetTransactionsToApproveReturn Examples.trunk Examples.tail))
  /\ run (getTransactionsToApprove Examples.externals Examples.nodeSelecting
            (DecodeOk Examples.malformedReference))
     = (selectCalls ++ [CallIsTransactionHash "not a hash"],
        JSON Http.StatusBadRequest
          (ErrorReturn "invalid reference hash supplied")).
Proof.
  split.
  - apply (proj1 (getTransactionsToApprove_reference Examples.externals
                    Examples.nodeSelecting Examples.validReference
                    [Examples.trunk; Examples.branch]
                    eq_refl eq_refl ltac:(vm_compute; discriminate))
                 eq_refl Examples.trunk [Examples.branch] eq_refl).
  - apply (proj2 (getTransactionsToApprove_reference Examples.externals
                    Examples.nodeSelecting Examples.malformedReference
                    [Examples.trunk; Examples.branch]
                    eq_refl eq_refl ltac:(vm_compute; discriminate))
                 eq_refl).
Defined.

(** C6. When the plugin runs, the request decodes and the tip selection
    fails: [ErrNodeNotSynced] and [ErrNoTipsAvailable] are each answered with
    503 and the message of the error; any other error is answered with 500
    and a message that starts with the internal error. *)
Theorem getTransactionsToApprove_selection_errors
    (x : Externals) (node : Node) (query : GetTransactionsToApprove)
    (err : error) :
  IsSkipped node urts_PLUGIN = false ->
  SelectNonLazyTips node = inl err ->
  snd (run (getTransactionsToApprove x node (DecodeOk query)))
  = match err with
    | ErrNodeNotSynced =>
        JSON Http.StatusServiceUnavailable (ErrorReturn (ErrNodeNotSyncedText x))
    | ErrNoTipsAvailable =>
        JSON Http.StatusServiceUnavailable (ErrorReturn (ErrNoTipsAvailableText x))
    | ErrOther msg =>
        JSON Http.StatusInternalServerError
          (ErrorReturn (ErrInternalError x ++ ": " ++ msg)%string)
    end.
Proof.
  intros Hskip Hselect.
  unfold getTransactionsToApprove. handler. destruct err; reflexivity.
Qed.

Lemma getTransactionsToApprove_selection_errors_witness :
  snd (run (getTransactionsToApprove Examples.externals
              (Examples.nodeFailing ErrNodeNotSynced)
              (DecodeOk Examples.validReference)))
  = JSON 503 (ErrorReturn "node is not synchronized")
  /\ snd (run (getTransactionsToApprove Examples.externals
                 (Examples.nodeFailing ErrNoTipsAvailable)
                 (DecodeOk Examples.validReference)))
     = JSON 503 (ErrorReturn "no tips available")
  /\ snd (run (getTransactionsToApprove Examples.externals
                 (Examples.nodeFailing (ErrOther "timeout"))
                 (DecodeOk Examples.validReference)))
     = JSON 500 (ErrorReturn "internal error: timeout").
Proof.
  split; [| split].
  - apply (getTransactionsToApprove_selection_errors Examples.externals
             (Examples.nodeFailing ErrNodeNotSynced) Examples.validReference
             ErrNodeNotSynced eq_refl eq_refl).
  - apply (getTransactionsToApprove_selection_errors Examples.externals
             (Examples.nodeFailing ErrNoTipsAvailable) Examples.validReference
             ErrNoTipsAvailable eq_refl eq_refl).
  - apply (getTransactionsToApprove_selection_errors Examples.externals
             (Examples.nodeFailing (ErrOther "timeout")) Examples.validReference
             (ErrOther "timeout") eq_refl eq_refl).
Defined.

(** C10. In [getTransactionsToApprove] the tips are selected before the
    reference is looked at.  When the selection fails with the error [err],
    the handler answers with that error right after the call to the
    selector: 503 and the message of [err] when [err] is [ErrNodeNotSynced]
    or [ErrNoTipsAvailable], and 500 with the internal error followed by the
    message of [err] otherwise.  The syntax check of the reference is never
    reached, so this is the answer for every reference, malformed or not,
    and it is never the 400 "invalid reference hash supplied" of a malformed
    reference. *)
Theorem getTransactionsToApprove_selects_first
    (x : Externals) (node : Node) (err : error) :
  IsSkipped node urts_PLUGIN = false ->
  SelectNonLazyTips node = inl err ->
  forall query : GetTransactionsToApprove,
    run (getTransactionsToApprove x node (DecodeOk query))
    = (selectCalls,
       match err with
       | ErrNodeNotSynced =>
           JSON Http.StatusServiceUnavailable
             (ErrorReturn (ErrNodeNotSyncedText x))
       | ErrNoTipsAvailable =>
           JSON Http.StatusServiceUnavailable
             (ErrorReturn (ErrNoTipsAvailableText x))
       | ErrOther msg =>
           JSON Http.StatusInternalServerError
             (ErrorReturn (ErrInternalError x ++ ": " ++ msg)%string)
       end)
    /\ statusOf (snd (run (getTransactionsToApprove x node (DecodeOk query))))
       <> Some Http.StatusBadRequest
    /\ ~ In (CallIsTransactionHash (Reference query))
            (fst (run (getTransactionsToApprove x node (DecodeOk query)))).
Proof.
  intros Hskip Hselect query.
  assert (Hrun :
    run (getTransactionsToApprove x node (DecodeOk query))
    = (selectCalls,
       match err with
       | ErrNodeNotSynced =>
           JSON Http.StatusServiceUnavailable
             (ErrorReturn (ErrNodeNotSyncedText x))
       | ErrNoTipsAvailable =>
           JSON Http.StatusServiceUnavailable
             (ErrorReturn (ErrNoTipsAvailableText x))
       | ErrOther msg =>
           JSON Http.StatusInternalServerError
             (ErrorReturn (ErrInternalError x ++ ": " ++ msg)%string)
       end)).
  { unfold getTransactionsToApprove, selectCalls. handler.
    destruct err; reflexivity. }
  rewrite Hrun. split; [reflexivity | split].
  - destruct err; cbn; discriminate.
  - cbn. intros [H | [H | [H | []]]]; discriminate H.
Qed.

Lemma getTransactionsToApprove_selects_first_witness :
  Guards.IsTransactionHash (Reference Examples.malformedReference) = false
  /\ run (getTransactionsToApprove Examples.externals
            (Examples.nodeFailing ErrNoTipsAvailable)
            (DecodeOk Examples.malformedReference))
     = (selectCalls, JSON 503 (ErrorReturn "no tips available"))
  /\ run (getTransactionsToApprove Examples.externals
            (Examples.nodeFailing (ErrOther "timeout"))
            (DecodeOk Examples.malformedReference))
     = (selectCalls, JSON 500 (ErrorReturn "internal error: timeout")).
Proof.
  split; [reflexivity | split].
  - exact (proj1 (getTransactionsToApprove_selects_first Examples.externals
                    (Examples.nodeFailing ErrNoTipsAvailable)
                    ErrNoTipsAvailable eq_refl eq_refl
                    Examples.malformedReference)).
  - exact (proj1 (getTransactionsToApprove_selects_first Examples.externals
                    (Examples.nodeFailing (ErrOther "timeout"))
                    (ErrOther "timeout") eq_refl eq_refl
                    Examples.malformedReference)).
Defined.

(* ===================================================================== *)
(** ** [getTipInfo]: client faults and the sync check *)
(* ===================================================================== *)

(** C7. On a node that serves the request (the plugin runs, the node is
    synced, the request decodes), [getTipInfo] answers each client fault with
    400 and a message of its own, and checks them in this order: the syntax
    of the tail hash, then whether the transaction is known, then whether it
    is a tail, then whether it is solid.  Each answer is given whatever the
    later checks would have found, and the traces show that a request which
    fails a check makes no later call: nothing is looked up for a malformed
    hash, and no classification call (LSMI, indexes, thresholds, bundle) is
    made for any of the four. *)
Theorem getTipInfo_client_faults
    (x : Externals) (node : Node) (query : GetTipInfo) :
  IsSkipped node urts_PLUGIN = false ->
  IsNodeSyncedWithThreshold node = true ->
  (Guards.IsTransactionHash (TailTransaction query) = false ->
   run (getTipInfo x node (DecodeOk query))
   = ([CallIsSkipped urts_PLUGIN; CallIsNodeSyncedWithThreshold; CallDecode;
       CallIsTransactionHash (TailTransaction query)],
      JSON Http.StatusBadRequest (ErrorReturn "invalid tail hash supplied")))
  /\ (Guards.IsTransactionHash (TailTransaction query) = true ->
      GetCachedTxMetadataOrNil node (HashFromHashTrytes x (TailTransaction query))
      = None ->
      run (getTipInfo x node (DecodeOk query))
      = (lookupCalls x query,
         JSON Http.StatusBadRequest (ErrorReturn "unknown tail transaction")))
  /\ (forall meta : Metadata,
        Guards.IsTransactionHash (TailTransaction query) = true ->
        GetCachedTxMetadataOrNil node
          (HashFromHashTrytes x (TailTransaction query)) = Some meta ->
        IsTail meta = false ->
        run (getTipInfo x node (DecodeOk query))
        = (lookupCalls x query,
           JSON Http.StatusBadRequest (ErrorReturn "transaction is not a tail")))
  /\ (forall meta : Metadata,
        Guards.IsTransactionHash (TailTransaction query) = true ->
        GetCachedTxMetadataOrNil node
          (HashFromHashTrytes x (TailTransaction query)) = Some meta ->
        IsTail meta = true ->
        IsSolid meta = false ->
        run (getTipInfo x node (DecodeOk query))
        = (lookupCalls x query,
           JSON Http.StatusBadRequest (ErrorReturn "transaction is not solid"))).
Proof.
  intros Hskip Hsync. unfold lookupCalls.
  split; [| split; [| split]].
  - intros Hvalid. unfold getTipInfo. handler. reflexivity.
  - intros Hvalid Hmeta. unfold getTipInfo. handler. reflexivity.
  - intros meta Hvalid Hmeta Htail. unfold getTipInfo. handler. reflexivity.
  - intros meta Hvalid Hmeta Htail Hsolid. unfold getTipInfo. handler.
    reflexivity.
Qed.

Lemma getTipInfo_client_faults_witness :
  snd (run (getTipInfo Examples.externals Examples.nodeUnknown
              (DecodeOk {| TailTransaction := "not a hash" |})))
  = JSON 400 (ErrorReturn "invalid tail hash supplied")
  /\ snd (run (getTipInfo Examples.externals Examples.nodeUnknown
                 (DecodeOk Examples.tipQuery)))
     = JSON 400 (ErrorReturn "unknown tail transaction")
  /\ snd (run (getTipInfo Examples.externals Examples.nodeNotATail
                 (DecodeOk Examples.tipQuery)))
     = JSON 400 (ErrorReturn "transaction is not a tail")
  /\ snd (run (getTipInfo Examples.externals Examples.nodeNotSolid
                 (DecodeOk Examples.tipQuery)))
     = JSON 400 (ErrorReturn "transaction is not solid").
Proof.
  split; [| split; [| split]].
  - rewrite (proj1 (getTipInfo_client_faults Examples.externals
                      Examples.nodeUnknown {| TailTransaction := "not a hash" |}
                      eq_refl eq_refl) eq_refl).
    reflexivity.
  - rewrite (proj1 (proj2 (getTipInfo_client_faults Examples.externals
                             Examples.nodeUnknown Examples.tipQuery
                             eq_refl eq_refl)) eq_refl eq_refl).
    reflexivity.
  - rewrite (proj1 (proj2 (proj2 (getTipInfo_client_faults Examples.externals
                                    Examples.nodeNotATail Examples.tipQuery
                                    eq_refl eq_refl)))
               (Examples.meta Examples.tail false false false false)
               eq_refl eq_refl eq_refl).
    reflexivity.
  - rewrite (proj2 (proj2 (proj2 (getTipInfo_client_faults Examples.externals
                                    Examples.nodeNotSolid Examples.tipQuery
                                    eq_refl eq_refl)))
               (Examples.meta Examples.tail true false false false)
               eq_refl eq_refl eq_refl eq_refl).
    reflexivity.
Defined.

(** C8, what the code does. When the plugin runs and the node is not synced
    within the threshold, [getTipInfo] answers right after the sync check
    with the message "node is not synced" and the status 400
    ([http.StatusBadRequest]), not 503; the sibling handler
    [getTransactionsToApprove] answers the same condition,
    [ErrNodeNotSynced], with 503. *)
Theorem getTipInfo_not_synced
    (x : Externals) (node : Node) (i : Decoded GetTipInfo) :
  IsSkipped node urts_PLUGIN = false ->
  IsNodeSyncedWithThreshold node = false ->
  run (getTipInfo x node i)
  = ([CallIsSkipped urts_PLUGIN; CallIsNodeSyncedWithThreshold],
     JSON Http.StatusBadRequest (ErrorReturn "node is not synced")).
Proof.
  intros Hskip Hsync. unfold getTipInfo. handler. reflexivity.
Qed.

Lemma getTipInfo_not_synced_witness :
  statusOf (snd (run (getTipInfo Examples.externals Examples.nodeNotSynced
                        (DecodeOk Examples.tipQuery))))
  = Some 400.
Proof.
  rewrite (getTipInfo_not_synced Examples.externals Examples.nodeNotSynced
             (DecodeOk Examples.tipQuery) eq_refl eq_refl).
  reflexivity.
Defined.

(* ===================================================================== *)
(** ** The disabled tip selection plugin *)
(* ===================================================================== *)

(** A handler the router finds is the handler of a registered route. *)
Lemma find_registered {H : Type} (routes : list (Echo.Route H))
    (m : Echo.Method) (request : string) (h : H) :
  Echo.find routes m request = Echo.Found h ->
  In h (map Echo.handler routes).
Proof.
  unfold Echo.find.
  destruct (forallb _ routes); [| discriminate].
  destruct (List.find _ routes) as [r |] eqn:Hfind.
  - intros [= <-]. apply find_some in Hfind. apply in_map. tauto.
  - destruct (existsb _ routes); discriminate.
Qed.

(** C9, amended. When the tip selection plugin is disabled, [getTipInfo] and
    [getTransactionsToApprove] answer 503 "tipselection plugin disabled in
    this node" after asking for the plugin's status and nothing else.  The
    REST [configure] does not register the [/tips] route then: no request is
    routed to [tips], and [GET /api/v1/tips] is left to the router, which
    finds no route for it and answers "not found" (404). *)
Theorem tip_endpoints_disabled
    (x : Externals) (node : Node) (i : Decoded GetTipInfo)
    (j : Decoded GetTransactionsToApprove) :
  IsSkipped node urts_PLUGIN = true ->
  run (getTipInfo x node i)
  = ([CallIsSkipped urts_PLUGIN],
     JSON Http.StatusServiceUnavailable
       (ErrorReturn "tipselection plugin disabled in this node"))
  /\ run (getTransactionsToApprove x node j)
     = ([CallIsSkipped urts_PLUGIN],
        JSON Http.StatusServiceUnavailable
          (ErrorReturn "tipselection plugin disabled in this node"))
  /\ (forall (m : Echo.Method) (request : string),
        RestAPI.serve node m request <> Echo.Found RestAPI.tips)
  /\ RestAPI.serve node Echo.GET "/api/v1/tips" = Echo.ErrNotFound
  /\ Echo.routerStatus (RestAPI.serve node Echo.GET "/api/v1/tips")
     = Some Http.StatusNotFound.
Proof.
  intros Hskip.
  assert (Hrest : RestAPI.serve node Echo.GET "/api/v1/tips" = Echo.ErrNotFound).
  { unfold RestAPI.serve, RestAPI.configure. cbn [RestAPI.routes].
    rewrite Hskip. destruct (IsSkipped node spammer_PLUGIN); reflexivity. }
  split; [| split; [| split; [| split]]].
  - unfold getTipInfo. handler. reflexivity.
  - unfold getTransactionsToApprove. handler. reflexivity.
  - intros m request Hfound. apply find_registered in Hfound. revert Hfound.
    unfold RestAPI.configure. cbn [RestAPI.routes]. rewrite Hskip.
    destruct (IsSkipped node spammer_PLUGIN); cbn; intuition discriminate.
  - exact Hrest.
  - rewrite Hrest. reflexivity.
Qed.

Lemma tip_endpoints_disabled_witness :
  run (getTipInfo Examples.externals Examples.nodeDisabled
         (DecodeOk Examples.tipQuery))
  = ([CallIsSkipped urts_PLUGIN],
     JSON 503 (ErrorReturn "tipselection plugin disabled in this node"))
  /\ run (getTransactionsToApprove Examples.externals Examples.nodeDisabled
            (DecodeOk Examples.validReference))
     = ([CallIsSkipped urts_PLUGIN],
        JSON 503 (ErrorReturn "tipselection plugin disabled in this node"))
  /\ RestAPI.serve Examples.nodeDisabled Echo.GET "/api/v1/tips"
     = Echo.ErrNotFound.
Proof.
  destruct (tip_endpoints_disabled Examples.externals Examples.nodeDisabled
              (DecodeOk Examples.tipQuery) (DecodeOk Examples.validReference)
              eq_refl) as (Hinfo & Happrove & _ & Hrest & _).
  split; [exact Hinfo | split; [exact Happrove | exact Hrest]].
Defined.

(** C9 as stated fails for the REST route: with the plugin disabled,
    [GET /api/v1/tips] reaches no handler of the plugin; the router answers
    it with "not found", status 404, and not with 503. *)
Lemma rest_tips_route_not_registered :
  IsSkipped Examples.nodeDisabled urts_PLUGIN = true
  /\ RestAPI.serve Examples.nodeDisabled Echo.GET "/api/v1/tips"
     = Echo.ErrNotFound
  /\ Echo.routerStatus
       (RestAPI.serve Examples.nodeDisabled Echo.GET "/api/v1/tips")
     = Some Http.StatusNotFound
  /\ Echo.routerStatus
       (RestAPI.serve Examples.nodeDisabled Echo.GET "/api/v1/tips")
     <> Some Http.StatusServiceUnavailable
  /\ RestAPI.serve Examples.nodeSelecting Echo.GET "/api/v1/tips"
     = Echo.Found RestAPI.tips.
Proof.
  repeat split; try reflexivity. vm_compute. discriminate.
Qed.

(* ===================================================================== *)
(** ** Further facts about the handlers *)
(* ===================================================================== *)

(** X1. The BMD test read on the integers: when the LSMI and the threshold fit a
    [uint32] and [0 <= OTRSI(tip) <= LSMI], nothing wraps around, and a tail
    with [LSMI - OTRSI(tip) > BMD] is to be reattached. *)
Theorem getTipInfo_below_max_depth_integers
    (x : Externals) (node : Node) (query : GetTipInfo) (meta : Metadata) :
  SolidTail x node query meta ->
  IsConfirmed meta = false ->
  IsConflicting meta = false ->
  Milestone.inRange (GetSolidMilestoneIndex node) ->
  Milestone.inRange (GetInt node CfgTipSelBelowMaxDepth) ->
  0 <= OTRSI node meta <= GetSolidMilestoneIndex node ->
  GetInt node CfgTipSelBelowMaxDepth
  < GetSolidMilestoneIndex node - OTRSI node meta ->
  snd (run (getTipInfo x node (DecodeOk query)))
  = JSON Http.StatusOK (GetTipInfoReturn false false false true).
Proof.
  intros Hs Hconfirmed Hconflicting Hlsmi Hcfg Hotrsi Hbmd. solid_tail Hs.
  rewrite <- (sub_no_wrap _ _ Hlsmi Hotrsi) in Hbmd.
  rewrite <- (ofInt_in_range _ Hcfg) in Hbmd.
  apply gtb_true in Hbmd. unfold OTRSI in Hbmd.
  unfold getTipInfo. handler. reflexivity.
Qed.

Lemma getTipInfo_below_max_depth_integers_witness :
  snd (run (getTipInfo Examples.externals Examples.nodeBelowMaxDepth
              (DecodeOk Examples.tipQuery)))
  = JSON Http.StatusOK (GetTipInfoReturn false false false true).
Proof.
  apply (getTipInfo_below_max_depth_integers Examples.externals
           Examples.nodeBelowMaxDepth Examples.tipQuery
           (Examples.pending Examples.tail));
    first [ reflexivity
          | repeat split; vm_compute; first [reflexivity | discriminate] ].
Defined.

(** X2. A solid tail that passes the BMD and [MaxYTRSIDelta] tests and whose
    bundle is unknown is answered with 400 "unknown bundle", before any
    approvee is looked at. *)
Theorem getTipInfo_unknown_bundle
    (x : Externals) (node : Node) (query : GetTipInfo) (meta : Metadata) :
  SolidTail x node query meta ->
  IsConfirmed meta = false ->
  IsConflicting meta = false ->
  deltaOTRSI node meta <= BMD node ->
  deltaYTRSI node meta <= MaxYTRSIDelta node ->
  GetCachedBundleOrNil node (GetTxHash meta) = None ->
  run (getTipInfo x node (DecodeOk query))
  = (lookupCalls x query ++ indexCalls node meta
       ++ [CallGetInt CfgTipSelBelowMaxDepth;
           CallGetInt CfgTipSelMaxDeltaTxYoungestRootSnapshotIndexToLSMI;
           CallGetCachedBundleOrNil (GetTxHash meta)],
     JSON Http.StatusBadRequest (ErrorReturn "unknown bundle")).
Proof.
  intros Hs Hconfirmed Hconflicting Hbmd Hy Hbundle. solid_tail Hs.
  apply gtb_false in Hbmd. unfold deltaOTRSI, OTRSI, BMD in Hbmd.
  apply gtb_false in Hy. unfold deltaYTRSI, YTRSI, MaxYTRSIDelta in Hy.
  unfold getTipInfo, lookupCalls, indexCalls. handler. reflexivity.
Qed.

Lemma getTipInfo_unknown_bundle_witness :
  snd (run (getTipInfo Examples.externals Examples.nodeNoBundle
              (DecodeOk Examples.tipQuery)))
  = JSON 400 (ErrorReturn "unknown bundle").
Proof.
  rewrite (getTipInfo_unknown_bundle Examples.externals Examples.nodeNoBundle
             Examples.tipQuery (Examples.pending Examples.tail));
    first [ reflexivity
          | repeat split; vm_compute; first [reflexivity | discriminate] ].
Defined.

(** X3. Without a reference, [getTransactionsToApprove] answers 200 with the
    first two selected tips as trunk and branch. *)
Theorem getTransactionsToApprove_two_tips
    (x : Externals) (node : Node) (query : GetTransactionsToApprove)
    (tip0 tip1 : Hash) (rest : list Hash) :
  IsSkipped node urts_PLUGIN = false ->
  SelectNonLazyTips node = inr (tip0 :: tip1 :: rest) ->
  Reference query = "" ->
  run (getTransactionsToApprove x node (DecodeOk query))
  = (selectCalls,
     JSON Http.StatusOK
       (GetTransactionsToApproveReturn (Trytes x tip0) (Trytes x tip1))).
Proof.
  intros Hskip Hselect Hreference.
  unfold getTransactionsToApprove, selectCalls. handler. reflexivity.
Qed.

Lemma getTransactionsToApprove_two_tips_witness :
  run (getTransactionsToApprove Examples.externals Examples.nodeSelecting
         (DecodeOk {| Reference := "" |}))
  = (selectCalls,
     JSON 200 (GetTransactionsToApproveReturn Examples.trunk Examples.branch)).
Proof.
  apply (getTransactionsToApprove_two_tips Examples.externals
           Examples.nodeSelecting {| Reference := "" |}
           Examples.trunk Examples.branch [] eq_refl eq_refl eq_refl).
Defined.

(** X4. When the tip selection plugin runs, [configure] registers the [/tips]
    route: [GET /api/v1/tips] is routed to [tips]. *)
Theorem rest_tips_route_registered (node : Node) :
  IsSkipped node urts_PLUGIN = false ->
  RestAPI.serve node Echo.GET "/api/v1/tips" = Echo.Found RestAPI.tips.
Proof.
  intros Hskip. unfold RestAPI.serve, RestAPI.configure.
  cbn [RestAPI.routes]. rewrite Hskip.
  destruct (IsSkipped node spammer_PLUGIN); reflexivity.
Qed.

Lemma rest_tips_route_registered_witness :
  RestAPI.serve Examples.nodeSelecting Echo.GET "/api/v1/tips"
  = Echo.Found RestAPI.tips.
Proof.
  apply (rest_tips_route_registered Examples.nodeSelecting eq_refl).
Defined.

(* ===================================================================== *)
(** ** [getTipInfo]: every answer *)
(* ===================================================================== *)

(** The outcome of a handler is the one its computation ends with. *)
Lemma run_outcome (h : Handler Empty_set) : snd h = inl (snd (run h)).
Proof. destruct h as [t [o | []]]. reflexivity. Qed.

(** Follow the handler of hypothesis [H] along one path, splitting on each
    test it makes. *)
Ltac follow H :=
  repeat first
    [ rewrite snd_bind in H; cbn [call respond ret panic snd] in H
    | match type of H with
      | context [if ?c then _ else _] =>
          destruct c eqn:?; cbn [call respond ret panic snd] in H
      | context [match ?c with DecodeOk _ => _ | DecodeErr _ => _ end] =>
          destruct c eqn:?; cbn [call respond ret panic snd] in H
      | context [match ?c with Some _ => _ | None => _ end] =>
          destruct c eqn:?; cbn [call respond ret panic snd] in H
      end ].

(** The loop over the approvees ends the handler in two ways only: with
    [shouldPromote = true], or with 400 for an approvee of the list that is
    not known. *)
Lemma scanApprovees_answers (x : Externals) (node : Node)
    (lsmi : Milestone.Index) (hashes : list Hash) (o : Outcome) :
  snd (scanApprovees x node lsmi hashes) = inl o ->
  o = JSON Http.StatusOK (GetTipInfoReturn false false true false)
  \/ exists h, In h hashes
               /\ SolidEntryPointsContain node h = false
               /\ GetCachedTxMetadataOrNil node h = None
               /\ o = JSON Http.StatusBadRequest
                        (ErrorReturn ("approvee transaction not found: "
                                      ++ Trytes x h)%string).
Proof.
  induction hashes as [| h rest IH]; [discriminate |].
  cbn [scanApprovees]. intros H. follow H;
    try (injection H as <-; now left);
    try (destruct (IH H) as [-> | (h' & Hin & Hrest)];
         [now left | right; exists h'; split; [now right | exact Hrest]]).
  injection H as <-. right. exists h. repeat split; trivial. now left.
Qed.

(** X5. A solid tail that is confirmed or conflicting is answered from its
    metadata alone: [conflicting] is the flag of the metadata, [confirmed]
    is set only when the tail is confirmed and not conflicting, and the tail
    is never to be promoted or reattached. *)
Theorem getTipInfo_settled
    (x : Externals) (node : Node) (query : GetTipInfo) (meta : Metadata) :
  SolidTail x node query meta ->
  IsConfirmed meta || IsConflicting meta = true ->
  run (getTipInfo x node (DecodeOk query))
  = (lookupCalls x query,
     JSON Http.StatusOK
       (GetTipInfoReturn (IsConfirmed meta && negb (IsConflicting meta))
                         (IsConflicting meta) false false)).
Proof.
  intros Hs Hsettled. solid_tail Hs.
  destruct (IsConfirmed meta) eqn:Hconfirmed,
           (IsConflicting meta) eqn:Hconflicting; try discriminate;
    unfold getTipInfo, lookupCalls; handler; reflexivity.
Qed.

Lemma getTipInfo_settled_witness :
  snd (run (getTipInfo Examples.externals MoreExamples.nodeConfirmed
              (DecodeOk Examples.tipQuery)))
  = JSON 200 (GetTipInfoReturn true false false false).
Proof.
  rewrite (getTipInfo_settled Examples.externals MoreExamples.nodeConfirmed
             Examples.tipQuery
             (Examples.meta Examples.tail true true false true));
    first [ reflexivity | repeat split; vm_compute; reflexivity ].
Defined.

(** X6. Whatever the node and the request, [getTipInfo] answers and does
    not panic: either 200 with a tip info in which at most one of
    [confirmed], [conflicting], [shouldPromote] and [shouldReattach] is set,
    or 400, 500 or 503 with an error message. *)
Theorem getTipInfo_answers
    (x : Externals) (node : Node) (i : Decoded GetTipInfo) :
  tipInfoAnswer (snd (run (getTipInfo x node i))) = true.
Proof.
  pose proof (run_outcome (getTipInfo x node i)) as H.
  remember (snd (run (getTipInfo x node i))) as o eqn:Ho. clear Ho.
  unfold getTipInfo in H. follow H;
    try (injection H as <-; reflexivity).
  - injection H as <-.
    match goal with
    | |- context [IsConfirmed ?m] =>
        destruct (IsConfirmed m), (IsConflicting m); reflexivity
    end.
  - match type of H with
    | match snd ?scan with _ => _ end = _ => destruct (snd scan) eqn:Hscan
    end.
    + injection H as <-. apply scanApprovees_answers in Hscan.
      destruct Hscan as [-> | (h & _ & _ & _ & ->)]; reflexivity.
    + injection H as <-. reflexivity.
Qed.

(** X7. For a solid tail, [getTipInfo] answers [shouldReattach = true]
    exactly when the tail is neither confirmed nor conflicting and its delta
    [LSMI - OTRSI(tip)] is over BMD: no other path of the handler, and no
    approvee, can ask for a reattachment. *)
Theorem getTipInfo_reattach_iff
    (x : Externals) (node : Node) (query : GetTipInfo) (meta : Metadata) :
  SolidTail x node query meta ->
  (exists status confirmed conflicting promote,
     snd (run (getTipInfo x node (DecodeOk query)))
     = JSON status (GetTipInfoReturn confirmed conflicting promote true))
  <-> (IsConfirmed meta = false
       /\ IsConflicting meta = false
       /\ BMD node < deltaOTRSI node meta).
Proof.
  intros Hs. solid_tail Hs. split.
  - intros (status & confirmed & conflicting & promote & Hout).
    pose proof (run_outcome (getTipInfo x node (DecodeOk query))) as H.
    rewrite Hout in H. clear Hout. unfold getTipInfo in H.
    follow H; try congruence.
    + clear H.
      match goal with
      | Hm : GetCachedTxMetadataOrNil _ _ = Some ?m |- _ =>
          assert (m = meta) by congruence; subst m
      end.
      match goal with
      | Hc : _ || _ = false |- _ =>
          destruct (IsConfirmed meta), (IsConflicting meta); try discriminate Hc
      end.
      repeat split.
      unfold BMD, deltaOTRSI, OTRSI. now apply gtb_lt.
    + match type of H with
      | match snd ?scan with _ => _ end = _ => destruct (snd scan) eqn:Hscan
      end; [| discriminate H].
      apply scanApprovees_answers in Hscan.
      destruct Hscan as [-> | (h & _ & _ & _ & ->)]; discriminate H.
  - intros (Hconfirmed & Hconflicting & Hbmd).
    apply gtb_true in Hbmd. unfold deltaOTRSI, OTRSI, BMD in Hbmd.
    exists Http.StatusOK, false, false, false.
    unfold getTipInfo. handler. reflexivity.
Qed.

Lemma getTipInfo_reattach_iff_witness :
  exists status confirmed conflicting promote,
    snd (run (getTipInfo Examples.externals Examples.nodeBelowMaxDepth
                (DecodeOk Examples.tipQuery)))
    = JSON status (GetTipInfoReturn confirmed conflicting promote true).
Proof.
  apply (getTipInfo_reattach_iff Examples.externals Examples.nodeBelowMaxDepth
           Examples.tipQuery (Examples.pending Examples.tail)).
  - repeat split; vm_compute; reflexivity.
  - repeat split; vm_compute; reflexivity.
Defined.

(** When the second index is ahead of the first, the difference on
    [milestone.Index] wraps around. *)
Lemma sub_wraps (a b : Milestone.Index) :
  Milestone.inRange a -> a < b < Milestone.modulus ->
  Milestone.sub a b = Milestone.modulus - (b - a).
Proof.
  unfold Milestone.inRange, Milestone.sub, Milestone.wrap. intros Ha Hb.
  replace (a - b) with (Milestone.modulus - (b - a) + (-1) * Milestone.modulus)
    by ring.
  rewrite Z.mod_add by (unfold Milestone.modulus; lia).
  apply Z.mod_small. lia.
Qed.

(** X8. The deltas are differences of unsigned 32-bit indexes: for a solid
    tail, neither confirmed nor conflicting, whose OTRSI is ahead of the
    LSMI, the delta [LSMI - OTRSI(tip)] wraps around to
    [2^32 - (OTRSI(tip) - LSMI)]; when that is over BMD, [getTipInfo]
    answers [shouldReattach = true]. *)
Theorem getTipInfo_index_ahead
    (x : Externals) (node : Node) (query : GetTipInfo) (meta : Metadata) :
  SolidTail x node query meta ->
  IsConfirmed meta = false ->
  IsConflicting meta = false ->
  Milestone.inRange (GetSolidMilestoneIndex node) ->
  GetSolidMilestoneIndex node < OTRSI node meta < Milestone.modulus ->
  BMD node
  < Milestone.modulus - (OTRSI node meta - GetSolidMilestoneIndex node) ->
  snd (run (getTipInfo x node (DecodeOk query)))
  = JSON Http.StatusOK (GetTipInfoReturn false false false true).
Proof.
  intros Hs Hconfirmed Hconflicting Hlsmi Hahead Hbmd. solid_tail Hs.
  rewrite <- (sub_wraps _ _ Hlsmi Hahead) in Hbmd.
  apply gtb_true in Hbmd. unfold OTRSI, BMD in Hbmd.
  unfold getTipInfo. handler. reflexivity.
Qed.

Lemma getTipInfo_index_ahead_witness :
  snd (run (getTipInfo Examples.externals MoreExamples.nodeAhead
              (DecodeOk Examples.tipQuery)))
  = JSON Http.StatusOK (GetTipInfoReturn false false false true).
Proof.
  apply (getTipInfo_index_ahead Examples.externals MoreExamples.nodeAhead
           Examples.tipQuery (Examples.pending Examples.tail));
    first [ reflexivity
          | repeat split; vm_compute; first [reflexivity | discriminate] ].
Defined.

(* ===================================================================== *)
(** ** Requests that do not decode, and the bounds of the selected tips *)
(* ===================================================================== *)

(** X9. A request that does not decode is answered with 500 and the decode
    error after the internal error: by [getTipInfo] once the plugin and the
    sync checks have passed, and by [getTransactionsToApprove] before any
    tip is selected. *)
Theorem handlers_decode_error
    (x : Externals) (node : Node) (err : string) :
  IsSkipped node urts_PLUGIN = false ->
  (IsNodeSyncedWithThreshold node = true ->
   run (getTipInfo x node (DecodeErr err))
   = ([CallIsSkipped urts_PLUGIN; CallIsNodeSyncedWithThreshold; CallDecode],
      JSON Http.StatusInternalServerError
        (ErrorReturn (ErrInternalError x ++ ": " ++ err)%string)))
  /\ run (getTransactionsToApprove x node (DecodeErr err))
     = ([CallIsSkipped urts_PLUGIN; CallDecode],
        JSON Http.StatusInternalServerError
          (ErrorReturn (ErrInternalError x ++ ": " ++ err)%string)).
Proof.
  intros Hskip. split.
  - intros Hsync. unfold getTipInfo. handler. reflexivity.
  - unfold getTransactionsToApprove. handler. reflexivity.
Qed.

Lemma handlers_decode_error_witness :
  snd (run (getTipInfo Examples.externals Examples.nodeSelecting
              (DecodeErr "expected a map")))
  = JSON 500 (ErrorReturn "internal error: expected a map")
  /\ run (getTransactionsToApprove Examples.externals Examples.nodeSelecting
            (DecodeErr "expected a map"))
     = ([CallIsSkipped urts_PLUGIN; CallDecode],
        JSON 500 (ErrorReturn "internal error: expected a map")).
Proof.
  destruct (handlers_decode_error Examples.externals Examples.nodeSelecting
              "expected a map" eq_refl) as [Hinfo Happrove].
  split; [rewrite (Hinfo eq_refl); reflexivity | exact Happrove].
Defined.

(** X10. [getTransactionsToApprove] indexes the selected tips without
    checking how many there are.  It panics exactly when the selection
    succeeded and either the request has a valid reference and no tip was
    selected ([tips[0]]), or the request has no reference and fewer than two
    tips were selected ([tips[0]] or [tips[1]]).  A malformed reference is
    answered before any tip is indexed. *)
Theorem getTransactionsToApprove_panics_iff
    (x : Externals) (node : Node) (i : Decoded GetTransactionsToApprove) :
  snd (run (getTransactionsToApprove x node i)) = Panic
  <-> IsSkipped node urts_PLUGIN = false
      /\ exists query tips,
           i = DecodeOk query
           /\ SelectNonLazyTips node = inr tips
           /\ ((Reference query <> ""
                /\ Guards.IsTransactionHash (Reference query) = true
                /\ tips = [])
               \/ (Reference query = "" /\ (List.length tips < 2)%nat)).
Proof.
  unfold getTransactionsToApprove.
  destruct (IsSkipped node urts_PLUGIN) eqn:Hskip;
    [cbn; split; [discriminate | intros [? _]; discriminate] |].
  destruct i as [query | err];
    [| cbn; split; [discriminate | intros (_ & q & t & ? & _); discriminate]].
  destruct (SelectNonLazyTips node) as [err | tips] eqn:Hselect.
  { cbn. split; [destruct err; discriminate |].
    intros (_ & q & t & _ & ? & _). discriminate. }
  destruct (Reference query) as [| c s] eqn:Hreference.
  - destruct tips as [| tip0 [| tip1 rest]]; cbn; rewrite Hreference; cbn.
    + split; [intros _ | reflexivity].
      split; [reflexivity |]. exists query, []. repeat split.
      right. split; [exact Hreference | cbn; lia].
    + split; [intros _ | reflexivity].
      split; [reflexivity |]. exists query, [tip0]. repeat split.
      right. split; [exact Hreference | cbn; lia].
    + split; [discriminate |].
      intros (_ & q & t & [= <-] & [= <-] & [(Hne & _) | (_ & Hlen)]).
      * congruence.
      * cbn in Hlen. lia.
  - destruct (Guards.IsTransactionHash (String c s)) eqn:Hvalid;
      destruct tips as [| tip0 rest]; cbn; rewrite Hreference; cbn;
      rewrite Hvalid; cbn.
    + split; [intros _ | reflexivity].
      split; [reflexivity |]. exists query, []. repeat split.
      left. rewrite Hreference. repeat split; [discriminate | exact Hvalid].
    + split; [discriminate |].
      intros (_ & q & t & [= <-] & [= <-] & [(_ & _ & ?) | (Hempty & _)]);
        congruence.
    + split; [discriminate |].
      intros (_ & q & t & [= <-] & [= <-] & [(_ & Hv & _) | (Hempty & _)]);
        congruence.
    + split; [discriminate |].
      intros (_ & q & t & [= <-] & [= <-] & [(_ & Hv & _) | (Hempty & _)]);
        congruence.
Qed.

Lemma getTransactionsToApprove_panics_iff_witness :
  snd (run (getTransactionsToApprove Examples.externals MoreExamples.nodeOneTip
              (DecodeOk MoreExamples.noReference)))
  = Panic
  /\ snd (run (getTransactionsToApprove Examples.externals
                 MoreExamples.nodeNoTip (DecodeOk Examples.validReference)))
     = Panic.
Proof.
  split.
  - apply (getTransactionsToApprove_panics_iff Examples.externals
             MoreExamples.nodeOneTip (DecodeOk MoreExamples.noReference)).
    split; [reflexivity |].
    exists MoreExamples.noReference, [Examples.trunk].
    repeat split. right. split; [reflexivity | cbn; lia].
  - apply (getTransactionsToApprove_panics_iff Examples.externals
             MoreExamples.nodeNoTip (DecodeOk Examples.validReference)).
    split; [reflexivity |].
    exists Examples.validReference, []. repeat split.
    left. split; [vm_compute; discriminate | split; reflexivity].
Defined.

(** X11. When a successful selection returns at least two tips,
    [getTransactionsToApprove] does not panic whatever the request: it
    answers 200 with two transactions, or 400, 500 or 503 with an error
    message. *)
Theorem getTransactionsToApprove_answers
    (x : Externals) (node : Node) (i : Decoded GetTransactionsToApprove) :
  (forall tips, SelectNonLazyTips node = inr tips ->
                (2 <= List.length tips)%nat) ->
  approveAnswer (snd (run (getTransactionsToApprove x node i))) = true.
Proof.
  intros Htips. unfold getTransactionsToApprove.
  destruct (IsSkipped node urts_PLUGIN); [reflexivity |].
  destruct i as [query | err]; [| reflexivity].
  destruct (SelectNonLazyTips node) as [err | tips] eqn:Hselect;
    [destruct err; reflexivity |].
  specialize (Htips tips eq_refl).
  destruct tips as [| tip0 [| tip1 rest]]; cbn in Htips; try lia.
  destruct (Reference query) as [| c s] eqn:Hreference;
    cbn; rewrite Hreference; cbn; [reflexivity |].
  destruct (Guards.IsTransactionHash (String c s)); reflexivity.
Qed.

Lemma getTransactionsToApprove_answers_witness :
  approveAnswer
    (snd (run (getTransactionsToApprove Examples.externals
                 Examples.nodeSelecting (DecodeOk Examples.malformedReference))))
  = true.
Proof.
  apply (getTransactionsToApprove_answers Examples.externals
           Examples.nodeSelecting (DecodeOk Examples.malformedReference)).
  intros tips [= <-]. cbn. lia.
Defined.

(* ===================================================================== *)
(** ** The route table of [configure] *)
(* ===================================================================== *)

Arguments Echo.matches : simpl never.

(** Every pattern [configure] registers is one the model covers. *)
Lemma configure_covered (node : Node) :
  forallb (fun r => Echo.covered (Echo.path r))
          (RestAPI.routes (RestAPI.configure node))
  = true.
Proof.
  unfold RestAPI.configure. cbn [RestAPI.routes].
  destruct (IsSkipped node urts_PLUGIN), (IsSkipped node spammer_PLUGIN);
    vm_compute; reflexivity.
Qed.

(** X13. The two plugins gate their own routes only: for a request that
    matches neither [/api/v1/tips] nor [/api/v1/spammer], the router gives
    the same result on every node, whichever plugins are disabled. *)
Theorem configure_gates_only_plugin_routes
    (node node' : Node) (m : Echo.Method) (request : string) :
  Echo.matches "/api/v1/tips" request = false ->
  Echo.matches "/api/v1/spammer" request = false ->
  RestAPI.serve node m request = RestAPI.serve node' m request.
Proof.
  intros Htips Hspammer.
  change (Echo.matches "/api/v1/tips" request)
    with (Echo.matches
            (Echo.path (RestAPI.route Echo.GET RestAPI.RouteTips RestAPI.tips))
            request) in Htips.
  change (Echo.matches "/api/v1/spammer" request)
    with (Echo.matches
            (Echo.path (RestAPI.route Echo.GET RestAPI.RouteSpammer
                          RestAPI.executeSpammerCommand))
            request) in Hspammer.
  unfold RestAPI.serve, Echo.find. rewrite !configure_covered.
  unfold RestAPI.configure. cbn [RestAPI.routes].
  match goal with
  | |- context [RestAPI.route Echo.GET RestAPI.RouteMessageMetadata
                  RestAPI.messageMetadataByID :: ?others] =>
      generalize (RestAPI.route Echo.GET RestAPI.RouteMessageMetadata
                    RestAPI.messageMetadataByID :: others)
  end.
  intros others.
  destruct (IsSkipped node urts_PLUGIN), (IsSkipped node spammer_PLUGIN),
           (IsSkipped node' urts_PLUGIN), (IsSkipped node' spammer_PLUGIN);
    cbn [app List.find existsb negb];
    rewrite ?Htips, ?Hspammer, ?andb_false_r; cbn [orb]; reflexivity.
Qed.

Lemma configure_gates_only_plugin_routes_witness :
  RestAPI.serve MoreExamples.nodeBare Echo.GET "/api/v1/peers/12D3Koo"
  = RestAPI.serve Examples.nodeSelecting Echo.GET "/api/v1/peers/12D3Koo".
Proof.
  apply (configure_gates_only_plugin_routes MoreExamples.nodeBare
           Examples.nodeSelecting Echo.GET "/api/v1/peers/12D3Koo");
    vm_compute; reflexivity.
Defined.

(** X14. [configure] registers the spammer route exactly when the spammer
    plugin is not skipped, whatever the status of the tip selection plugin:
    [GET /api/v1/spammer] is routed to [executeSpammerCommand] on a node
    that runs the spammer and finds no route otherwise. *)
Theorem configure_spammer_route (node : Node) :
  RestAPI.serve node Echo.GET "/api/v1/spammer"
  = if IsSkipped node spammer_PLUGIN
    then Echo.ErrNotFound
    else Echo.Found RestAPI.executeSpammerCommand.
Proof.
  unfold RestAPI.serve, RestAPI.configure. cbn [RestAPI.routes].
  destruct (IsSkipped node urts_PLUGIN), (IsSkipped node spammer_PLUGIN);
    reflexivity.
Qed.

(** A path has at least one segment. *)
Lemma segments_not_nil (s : string) : Echo.segments s <> [].
Proof.
  destruct s as [| c s]; cbn; [discriminate |].
  destruct (Ascii.eqb c "/"); [discriminate |].
  destruct (Echo.segments s); discriminate.
Qed.

(** A path with a second segment has a [/] after its first one. *)
Lemma segments_cons (s a b : string) (t : list string) :
  Echo.segments s = a :: b :: t ->
  exists s', s = (a ++ String "/" s')%string /\ Echo.segments s' = b :: t.
Proof.
  revert a. induction s as [| c s IH]; intros a; cbn; [discriminate |].
  destruct (Ascii.eqb_spec c "/") as [-> | Hc].
  - intros [= <- Hs]. exists s. split; [reflexivity | exact Hs].
  - destruct (Echo.segments s) as [| seg segs] eqn:Hs;
      [now destruct (segments_not_nil s) |].
    intros [= <- ->].
    destruct (IH seg eq_refl) as (s' & -> & Hs').
    exists s'. split; [reflexivity | exact Hs'].
Qed.

(** A path starts with its first segment. *)
Lemma segments_head (s a : string) (t : list string) :
  Echo.segments s = a :: t -> exists rest, s = (a ++ rest)%string.
Proof.
  revert a t. induction s as [| c s IH]; intros a t; cbn.
  - intros [= <- _]. now exists "".
  - destruct (Ascii.eqb_spec c "/") as [-> | Hc].
    + intros [= <- _]. now exists (String "/" s).
    + destruct (Echo.segments s) as [| seg segs] eqn:Hs;
        [now destruct (segments_not_nil s) |].
      intros [= <- _]. destruct (IH seg segs eq_refl) as (rest & ->).
      now exists rest.
Qed.

(** A request that matches a pattern under [/api/v1/] starts with
    [/api/v1/]. *)
Lemma matches_api_v1 (p3 : string) (ps : list string) (request : string) :
  Echo.matchSegments ("" :: "api" :: "v1" :: p3 :: ps) (Echo.segments request)
  = true ->
  exists rest, request = ("/api/v1/" ++ rest)%string.
Proof.
  destruct (Echo.segments request) as [| s0 [| s1 [| s2 [| s3 rs]]]] eqn:Hseg;
    cbn [Echo.matchSegments Echo.isParam andb orb negb Ascii.eqb Bool.eqb];
    rewrite ?andb_false_r; try discriminate.
  intros H.
  apply andb_true_iff in H as [H0 H]. apply andb_true_iff in H as [H1 H].
  apply andb_true_iff in H as [H2 _].
  apply String.eqb_eq in H0, H1, H2. subst s0 s1 s2.
  apply segments_cons in Hseg as (r1 & -> & Hseg).
  apply segments_cons in Hseg as (r2 & -> & Hseg).
  apply segments_cons in Hseg as (r3 & -> & _).
  now exists r3.
Qed.

(** X15. [configure] registers its routes on the group [/api/v1]: a request
    that is routed to one of its handlers has a path that starts with
    [/api/v1/]. *)
Theorem configure_serves_group_only
    (node : Node) (m : Echo.Method) (request : string)
    (h : RestAPI.Endpoint) :
  RestAPI.serve node m request = Echo.Found h ->
  exists rest, request = ("/api/v1/" ++ rest)%string.
Proof.
  unfold RestAPI.serve, Echo.find. rewrite configure_covered.
  destruct (List.find _ _) as [r |] eqn:Hfind;
    [intros _ | destruct (existsb _ _); discriminate].
  apply find_some in Hfind as [Hin Hr].
  apply andb_true_iff in Hr as [_ Hr]. unfold Echo.matches in Hr.
  revert Hin. unfold RestAPI.configure. cbn [RestAPI.routes].
  destruct (IsSkipped node urts_PLUGIN), (IsSkipped node spammer_PLUGIN);
    cbn [negb app In]; intros Hin;
    repeat (destruct Hin as [<- | Hin];
            [ match type of Hr with
              | Echo.matchSegments ?p _ = true =>
                  let p' := eval vm_compute in p in
                  change p with p' in Hr
              end;
              exact (matches_api_v1 _ _ _ Hr) | ]);
    destruct Hin.
Qed.

Lemma configure_serves_group_only_witness :
  exists rest, "/api/v1/info" = ("/api/v1/" ++ rest)%string.
Proof.
  apply (configure_serves_group_only Examples.nodeSelecting Echo.GET
           "/api/v1/info" RestAPI.info eq_refl).
Defined.

(* ===================================================================== *)
(** ** The route table of [SetupApiRoutesV1] *)
(* ===================================================================== *)

Lemma segments_app_slash (g rest : string) :
  Echo.segments (g ++ String "/" rest) = Echo.segments g ++ Echo.segments rest.
Proof.
  induction g as [| c g IH]; cbn [String.append Echo.segments]; [reflexivity |].
  destruct (Ascii.eqb c "/"); rewrite IH; [reflexivity |].
  destruct (Echo.segments g) as [| seg segs] eqn:Hg;
    [now destruct (segments_not_nil g) | reflexivity].
Qed.

Lemma matchSegments_app_same (a p r : list string) :
  Echo.matchSegments (a ++ p) (a ++ r) = Echo.matchSegments p r.
Proof.
  induction a as [| s a IH]; cbn [app Echo.matchSegments]; [reflexivity |].
  now rewrite String.eqb_refl, orb_true_r, IH.
Qed.

Lemma rooted_inv (p : string) : rooted p = true -> exists p', p = String "/" p'.
Proof.
  destruct p as [| c p]; cbn; [discriminate |].
  destruct (Ascii.eqb_spec c "/") as [-> | _]; [| discriminate].
  now exists p.
Qed.

(** On a group, a rooted pattern matches a request under the group's prefix
    as the pattern alone matches the rest of the request. *)
Lemma matches_inGroup (g p r : string) :
  rooted p = true ->
  Echo.matches (g ++ p) (g ++ String "/" r) = Echo.matches p (String "/" r).
Proof.
  intros Hp. apply rooted_inv in Hp as (p' & ->). unfold Echo.matches.
  rewrite !segments_app_slash, matchSegments_app_same.
  cbn [Echo.segments Ascii.eqb Bool.eqb Echo.matchSegments Echo.isParam andb].
  now rewrite String.eqb_refl.
Qed.

(** The segments of a plain text are plain. *)
Lemma plain_segments (g : string) :
  Echo.plain g = true -> forallb Echo.coveredSegment (Echo.segments g) = true.
Proof.
  intros Hg.
  assert (Hplain : forallb Echo.plain (Echo.segments g) = true).
  { induction g as [| c g IH]; [reflexivity |].
    cbn [Echo.plain] in Hg. apply andb_true_iff in Hg as [Hc Hg].
    specialize (IH Hg). cbn [Echo.segments].
    destruct (Ascii.eqb c "/"); [exact IH |].
    destruct (Echo.segments g) as [| seg segs];
      cbn [forallb Echo.plain] in *; [now rewrite Hc |].
    apply andb_true_iff in IH as [Hseg Hsegs]. now rewrite Hc, Hseg, Hsegs. }
  rewrite forallb_forall in Hplain. apply forallb_forall.
  intros seg Hin. unfold Echo.coveredSegment. now rewrite (Hplain seg Hin).
Qed.

(** On a group with a plain prefix that is empty or starts with [/], a
    rooted pattern is covered when the pattern alone is. *)
Lemma covered_inGroup (g p : string) :
  Echo.plain g = true ->
  g = "" \/ rooted g = true ->
  rooted p = true ->
  Echo.covered (g ++ p) = Echo.covered p.
Proof.
  intros Hplain Hg Hp. apply rooted_inv in Hp as (p' & ->).
  unfold Echo.covered. rewrite segments_app_slash, forallb_app.
  rewrite (plain_segments g Hplain).
  cbn [Echo.segments Ascii.eqb Bool.eqb forallb andb].
  destruct Hg as [-> | Hg]; [reflexivity |].
  apply rooted_inv in Hg as (g' & ->). reflexivity.
Qed.

(** The router finds on the group what it finds on the routes alone for the
    rest of the request. *)
Lemma find_inGroup {H : Type} (g : string) (base : list (Echo.Route H))
    (m : Echo.Method) (r : string) :
  Echo.plain g = true ->
  g = "" \/ rooted g = true ->
  forallb (fun r => rooted (Echo.path r)) base = true ->
  Echo.find (map (inGroup g) base) m (g ++ String "/" r)
  = Echo.find base m (String "/" r).
Proof.
  intros Hplain Hg Hrooted. unfold Echo.find.
  assert (Hcovered :
    forallb (fun rt => Echo.covered (Echo.path rt)) (map (inGroup g) base)
    = forallb (fun rt => Echo.covered (Echo.path rt)) base).
  { induction base as [| rt base IH]; [reflexivity |].
    cbn [forallb] in Hrooted. apply andb_true_iff in Hrooted as [Hrt Hbase].
    cbn [map forallb inGroup Echo.path].
    now rewrite (covered_inGroup g _ Hplain Hg Hrt), (IH Hbase). }
  assert (Hfind :
    List.find (fun rt => Echo.Method_eqb (Echo.method rt) m
                         && Echo.matches (Echo.path rt) (g ++ String "/" r))
              (map (inGroup g) base)
    = option_map (inGroup g)
        (List.find (fun rt => Echo.Method_eqb (Echo.method rt) m
                              && Echo.matches (Echo.path rt) (String "/" r))
                   base)).
  { clear Hcovered. induction base as [| rt base IH]; [reflexivity |].
    cbn [forallb] in Hrooted. apply andb_true_iff in Hrooted as [Hrt Hbase].
    cbn [map List.find inGroup Echo.method Echo.path].
    rewrite (matches_inGroup g _ r Hrt), (IH Hbase).
    now destruct (_ && _). }
  assert (Hexists :
    existsb (fun rt => Echo.matches (Echo.path rt) (g ++ String "/" r))
            (map (inGroup g) base)
    = existsb (fun rt => Echo.matches (Echo.path rt) (String "/" r)) base).
  { clear Hcovered Hfind. induction base as [| rt base IH]; [reflexivity |].
    cbn [forallb] in Hrooted. apply andb_true_iff in Hrooted as [Hrt Hbase].
    cbn [map existsb inGroup Echo.path].
    now rewrite (matches_inGroup g _ r Hrt), (IH Hbase). }
  rewrite Hcovered, Hfind, Hexists.
  destruct (forallb (fun rt => Echo.covered (Echo.path rt)) base);
    [| reflexivity].
  now destruct (List.find _ base).
Qed.

(** The routes of a group are the routes of the empty group, each on the
    group; all of them are rooted. *)
Lemma SetupApiRoutesV1_inGroup (node : Node) (e : bool) (g : string) :
  RestAPI.routes (RestAPIv1.SetupApiRoutesV1 node e g)
  = map (inGroup g) (RestAPI.routes (RestAPIv1.SetupApiRoutesV1 node e "")).
Proof.
  unfold RestAPIv1.SetupApiRoutesV1. cbn [RestAPI.routes].
  destruct (IsSkipped node urts_PLUGIN), (IsSkipped node spammer_PLUGIN);
    reflexivity.
Qed.

Lemma SetupApiRoutesV1_rooted (node : Node) (e : bool) :
  forallb (fun r => rooted (Echo.path r))
          (RestAPI.routes (RestAPIv1.SetupApiRoutesV1 node e ""))
  = true.
Proof.
  unfold RestAPIv1.SetupApiRoutesV1. cbn [RestAPI.routes].
  destruct (IsSkipped node urts_PLUGIN), (IsSkipped node spammer_PLUGIN);
    vm_compute; reflexivity.
Qed.

(** X16. On a group whose prefix is plain (no [:], no [*]) and empty or
    starting with [/], [SetupApiRoutesV1] registers the tips route exactly
    when the tip selection plugin is not skipped: [GET <group>/tips] is
    routed to [tips] then, and finds no route otherwise. *)
Theorem SetupApiRoutesV1_tips_route
    (node : Node) (runAsEntryNode : bool) (group : string) :
  Echo.plain group = true ->
  group = "" \/ rooted group = true ->
  RestAPIv1.serve node runAsEntryNode group Echo.GET (group ++ "/tips")
  = if IsSkipped node urts_PLUGIN
    then Echo.ErrNotFound
    else Echo.Found RestAPI.tips.
Proof.
  intros Hplain Hgroup. unfold RestAPIv1.serve.
  rewrite SetupApiRoutesV1_inGroup,
    (find_inGroup group _ Echo.GET "tips" Hplain Hgroup
       (SetupApiRoutesV1_rooted node runAsEntryNode)).
  unfold RestAPIv1.SetupApiRoutesV1. cbn [RestAPI.routes].
  destruct (IsSkipped node urts_PLUGIN), (IsSkipped node spammer_PLUGIN);
    reflexivity.
Qed.

Lemma SetupApiRoutesV1_tips_route_witness :
  RestAPIv1.serve Examples.nodeSelecting false "/api/v1" Echo.GET "/api/v1/tips"
  = Echo.Found RestAPI.tips
  /\ RestAPIv1.serve Examples.nodeDisabled false "/api/v1" Echo.GET
       "/api/v1/tips"
     = Echo.ErrNotFound.
Proof.
  split.
  - apply (SetupApiRoutesV1_tips_route Examples.nodeSelecting false "/api/v1"
             eq_refl (or_intror eq_refl)).
  - apply (SetupApiRoutesV1_tips_route Examples.nodeDisabled false "/api/v1"
             eq_refl (or_intror eq_refl)).
Defined.



(* ===================================================================== *)
(** ** [getTipInfo]: approvees the node does not know *)
(* ===================================================================== *)

(** When no approvee of the list is too old and one of them is unknown, the
    loop ends the handler with 400 for an unknown approvee. *)
Lemma scanApprovees_unknown (x : Externals) (node : Node) (hashes : list Hash) :
  (forall h, In h hashes -> approveeTooOld node h = false) ->
  (exists h, In h hashes /\ approveeOTRSI node h = None) ->
  exists h,
    In h hashes
    /\ approveeOTRSI node h = None
    /\ snd (scanApprovees x node (GetSolidMilestoneIndex node) hashes)
       = inl (JSON Http.StatusBadRequest
                (ErrorReturn ("approvee transaction not found: "
                              ++ Trytes x h)%string)).
Proof.
  induction hashes as [| h0 rest IH]; intros Hyoung (h & Hin & Hnone);
    [destruct Hin |].
  assert (Hyoung0 : approveeTooOld node h0 = false) by (apply Hyoung; now left).
  assert (Hrest : forall h', In h' rest -> approveeTooOld node h' = false)
    by (intros h' Hin'; apply Hyoung; now right).
  cbn [scanApprovees]. rewrite !snd_bind. cbn [call snd].
  unfold approveeTooOld in Hyoung0.
  destruct (approveeOTRSI node h0) as [o |] eqn:Hknown.
  - assert (Hin' : In h rest) by (destruct Hin as [<- | ?]; congruence).
    destruct (IH Hrest (ex_intro _ h (conj Hin' Hnone)))
      as (h' & Hin'' & Hnone' & Hscan).
    exists h'. split; [now right | split; [exact Hnone' |]].
    unfold approveeOTRSI in Hknown.
    unfold MaxApproveeOTRSIDelta in Hyoung0.
    destruct (SolidEntryPointsContain node h0).
    + injection Hknown as <-.
      rewrite !snd_bind. cbn [call ret snd]. rewrite !snd_bind. cbn [call snd].
      rewrite Hyoung0. exact Hscan.
    + rewrite !snd_bind. cbn [call snd].
      destruct (GetCachedTxMetadataOrNil node h0) as [m |]; [| discriminate].
      injection Hknown as <-. unfold OTRSI in Hyoung0.
      rewrite !snd_bind. cbn [call ret snd]. rewrite !snd_bind. cbn [call snd].
      rewrite Hyoung0. exact Hscan.
  - exists h0. split; [now left | split; [exact Hknown |]].
    unfold approveeOTRSI in Hknown.
    destruct (SolidEntryPointsContain node h0); [discriminate |].
    rewrite !snd_bind. cbn [call snd].
    destruct (GetCachedTxMetadataOrNil node h0); [discriminate |].
    reflexivity.
Qed.

Lemma approveeHashes_In (node : Node) (b : Bundle) (h : Hash) :
  In h [GetTrunkHash b; GetBranchHash b] -> In h (approveeHashes node b).
Proof.
  unfold approveeHashes.
  destruct (String.eqb_spec (GetTrunkHash b) (GetBranchHash b)) as [Heq | _];
    [rewrite <- Heq | destruct (rangeBranchFirst node)]; cbn; tauto.
Qed.

(** X19. For a solid tail that is neither confirmed nor conflicting, passes
    the BMD and the [MaxYTRSIDelta] tests and has a known bundle: when an
    approvee is neither a solid entry point nor a known transaction and no
    approvee is too old, [getTipInfo] answers 400 "approvee transaction not
    found" with the trytes of an unknown approvee, in either order of the
    map of approvees. *)
Theorem getTipInfo_unknown_approvee
    (x : Externals) (node : Node) (query : GetTipInfo) (meta : Metadata)
    (bundle : Bundle) :
  SolidTail x node query meta ->
  IsConfirmed meta = false ->
  IsConflicting meta = false ->
  deltaOTRSI node meta <= BMD node ->
  deltaYTRSI node meta <= MaxYTRSIDelta node ->
  GetCachedBundleOrNil node (GetTxHash meta) = Some bundle ->
  (exists h, In h [GetTrunkHash bundle; GetBranchHash bundle]
             /\ approveeOTRSI node h = None) ->
  (forall h, In h [GetTrunkHash bundle; GetBranchHash bundle] ->
             approveeTooOld node h = false) ->
  exists h,
    In h [GetTrunkHash bundle; GetBranchHash bundle]
    /\ approveeOTRSI node h = None
    /\ snd (run (getTipInfo x node (DecodeOk query)))
       = JSON Http.StatusBadRequest
           (ErrorReturn ("approvee transaction not found: "
                         ++ Trytes x h)%string).
Proof.
  intros Hs Hconfirmed Hconflicting Hbmd Hy Hbundle (h & Hin & Hnone) Hyoung.
  solid_tail Hs.
  apply gtb_false in Hbmd. unfold deltaOTRSI, OTRSI, BMD in Hbmd.
  apply gtb_false in Hy. unfold deltaYTRSI, YTRSI, MaxYTRSIDelta in Hy.
  destruct (scanApprovees_unknown x node (approveeHashes node bundle))
    as (h' & Hin' & Hnone' & Hscan).
  - intros h0 Hin0. apply Hyoung. now apply In_approveeHashes in Hin0.
  - exists h. split; [now apply approveeHashes_In | exact Hnone].
  - exists h'. split; [now apply In_approveeHashes in Hin' |].
    split; [exact Hnone' |].
    apply snd_run. unfold getTipInfo.
    repeat (rewrite snd_bind; cbn [call snd]; rewrite_known;
            cbn [negb andb orb]).
    reflexivity.
Qed.

Lemma getTipInfo_unknown_approvee_witness :
  exists h,
    In h [Examples.trunk; Examples.trunk]
    /\ approveeOTRSI Examples.nodeMissingApprovee h = None
    /\ snd (run (getTipInfo Examples.externals Examples.nodeMissingApprovee
                   (DecodeOk Examples.tipQuery)))
       = JSON Http.StatusBadRequest
           (ErrorReturn ("approvee transaction not found: " ++ h)%string).
Proof.
  apply (getTipInfo_unknown_approvee Examples.externals
           Examples.nodeMissingApprovee Examples.tipQuery
           (Examples.pending Examples.tail)
           {| GetTrunkHash := Examples.trunk; GetBranchHash := Examples.trunk |}).
  - repeat split; vm_compute; reflexivity.
  - reflexivity.
  - reflexivity.
  - vm_compute. discriminate.
  - vm_compute. discriminate.
  - reflexivity.
  - exists Examples.trunk. split; [now left | reflexivity].
  - intros h [<- | [<- | []]]; reflexivity.
Defined.
